(** * Vehicle damage analytics: severity, repair cost, normalizer, matcher

    A shallow embedding of the Python service under [src/ai-service]:
    - [utils.py]: [get_damage_severity], [estimate_repair_details];
    - [analyzer.py]: [analyze_image_bytes];
    - [compare_damage.py]: [_det_to_xyxy], [_iou], [find_new_damages].

    Numbers.  Python [float]s are embedded as exact rationals [Q]: every
    arithmetic operation below is the exact operation, and the rounding
    error of binary64 arithmetic is outside this model.  Python [int]s are
    [Z].  Equality of computed floats is [Qeq] ([==]).  The two numeric
    scenarios of the specification are evaluated a second time over
    binary64 floats, in [Binary64].

    Errors.  Code that can raise returns a [result]: a division raises
    [ZeroDivisionError] on a zero divisor, a subscript on a dict raises
    [KeyError] on a missing key. *)

From Stdlib Require Import QArith Qround Qminmax Lqa ZArith Lia Ascii String Floats.
From stdpp Require Import gmap strings list pretty.

Set Warnings "-inexact-float".

Open Scope Q_scope.

(** ** Python runtime *)

Module Py.

(** The exceptions of this code; [RuntimeError] stands for whatever the
    model loader or the detector raises. *)
Inductive exn : Type :=
| ZeroDivisionError
| KeyError (key : string)
| ValueError (msg : string)
| OverflowError (msg : string)
| RuntimeError (msg : string).

Inductive result (A : Type) : Type :=
| Ok (a : A)
| Raise (e : exn).
Arguments Ok {A} a.
Arguments Raise {A} e.

Definition bind {A B} (r : result A) (k : A -> result B) : result B :=
  match r with
  | Ok a => k a
  | Raise e => Raise e
  end.

(** [x < y] on floats. *)
Definition ltb (x y : Q) : bool := negb (Qle_bool y x).

(** [x >= y] on floats. *)
Definition geb (x y : Q) : bool := Qle_bool y x.

(** [max(a, b)]: the first argument is kept unless the second is
    strictly greater. *)
Definition max (a b : Q) : Q := if ltb a b then b else a.

(** [min(a, b)]: the first argument is kept unless the second is
    strictly smaller. *)
Definition min (a b : Q) : Q := if ltb b a then b else a.

(** [x / y] with a divisor that is not a literal. *)
Definition div (x y : Q) : result Q :=
  if Qeq_bool y 0 then Raise ZeroDivisionError else Ok (x / y).

(** [round(x)]: the nearest integer, ties to the even one. *)
Definition round_int (x : Q) : Z :=
  let f := Qfloor x in
  match Qcompare (x - inject_Z f) (1 # 2) with
  | Lt => f
  | Gt => (f + 1)%Z
  | Eq => if Z.even f then f else (f + 1)%Z
  end.

(** [round(x, ndigits)] for [ndigits >= 0]. *)
Definition round (x : Q) (ndigits : nat) : Q :=
  let scale := inject_Z (10 ^ Z.of_nat ndigits) in
  inject_Z (round_int (x * scale)) / scale.

(** [d[key]] on a dict with string keys. *)
Definition getitem {V} (d : gmap string V) (key : string) : result V :=
  match d !! key with
  | Some v => Ok v
  | None => Raise (KeyError key)
  end.

(** [d.get(key, dflt)]. *)
Definition get {K V} `{Countable K} (d : gmap K V) (key : K) (dflt : V) : V :=
  match d !! key with
  | Some v => v
  | None => dflt
  end.

(** [s.lower()] on ASCII text: the letters A to Z are shifted, every other
    byte is kept. *)
Definition lower_ascii (c : ascii) : ascii :=
  let n := nat_of_ascii c in
  if (65 <=? n)%nat && (n <=? 90)%nat then ascii_of_nat (n + 32) else c.

Fixpoint lower (s : string) : string :=
  match s with
  | EmptyString => EmptyString
  | String c s' => String (lower_ascii c) (lower s')
  end.

End Py.

(** [x ← r; k] runs [r] and stops at the first exception. *)
#[global] Instance result_bind : MBind Py.result := fun A B k r => Py.bind r k.

Import Py (Ok, Raise).

(** ** utils.py: severity *)

Definition get_damage_severity (width height img_width img_height : Q)
  : Py.result (string * Q) :=
  let damage_area := Py.max 0 width * Py.max 0 height in
  let image_area := Py.max 1 (img_width * img_height) in
  ratio ← Py.div damage_area image_area;
  let bbox_pixels := damage_area in
  q_low ← Py.div 2500 image_area;
  let low_threshold := Py.max 0.04 q_low in
  q_medium ← Py.div 8000 image_area;
  let medium_threshold := Py.max 0.12 q_medium in
  let severity :=
    if Py.ltb bbox_pixels 1500 then "low"%string
    else if Py.ltb ratio low_threshold then "low"%string
    else if Py.ltb ratio medium_threshold then "medium"%string
    else "high"%string in
  Ok (severity, ratio).

(** The classifier as the specification words it: mathematical [max], with
    the four-way decision taken in order. *)
Definition severity_decision (damage_area ratio image_area : Q) : string :=
  if Qlt_le_dec damage_area 1500 then "low"%string
  else if Qlt_le_dec ratio (Qmax 0.04 (2500 / image_area)) then "low"%string
  else if Qlt_le_dec ratio (Qmax 0.12 (8000 / image_area)) then "medium"%string
  else "high"%string.

Definition severity_spec (width height image_width image_height : Q)
  : string * Q :=
  let damage_area := Qmax 0 width * Qmax 0 height in
  let image_area := Qmax 1 (image_width * image_height) in
  let ratio := damage_area / image_area in
  (severity_decision damage_area ratio image_area, ratio).

(** ** utils.py: repair cost *)

(** One entry of [TYPE_COMPLEXITY]. *)
Record Profile : Type := {
  base_hours : Q;
  material_factor : Q
}.

Definition TYPE_COMPLEXITY : gmap string Profile :=
  list_to_map [
    ("scratch"%string, {| base_hours := 0.8; material_factor := 0.5 |});
    ("scratches"%string, {| base_hours := 0.8; material_factor := 0.5 |});
    ("paint"%string, {| base_hours := 1.0; material_factor := 0.7 |});
    ("dent"%string, {| base_hours := 1.5; material_factor := 1.0 |});
    ("ding"%string, {| base_hours := 1.2; material_factor := 0.8 |});
    ("crack"%string, {| base_hours := 1.1; material_factor := 1.2 |});
    ("glass shatter"%string, {| base_hours := 2.2; material_factor := 1.6 |});
    ("lamp broken"%string, {| base_hours := 1.3; material_factor := 1.1 |});
    ("tire flat"%string, {| base_hours := 1.0; material_factor := 0.9 |});
    ("broken"%string, {| base_hours := 1.8; material_factor := 1.4 |});
    ("default"%string, {| base_hours := 1.0; material_factor := 0.9 |})
  ].

Definition SEVERITY_LOAD : gmap string Q :=
  list_to_map [
    ("low"%string, 0.7);
    ("medium"%string, 1.0);
    ("high"%string, 1.5);
    ("unknown"%string, 0.85)
  ].

(** The entry [TYPE_COMPLEXITY["default"]]. *)
Definition default_profile : Profile :=
  {| base_hours := 1.0; material_factor := 0.9 |}.

(** The dict returned by [estimate_repair_details]. *)
Record RepairEstimate : Type := {
  re_damage_type : string;
  re_severity : string;
  re_area_ratio : Q;
  re_labor_hours : Q;
  re_material_units : Q;
  re_labor_cost : Q;
  re_material_cost : Q;
  re_overhead_cost : Q;
  re_confidence_factor : Q;
  re_total_cost : Z
}.

(** The local variables of [estimate_repair_details], before the rounding
    of the returned dict. *)
Record Derivation : Type := {
  effort_multiplier : Q;
  confidence_factor : Q;
  labor_hours : Q;
  material_units : Q;
  labor_cost : Q;
  material_cost : Q;
  overhead_cost : Q;
  raw_total : Q;
  total_cost : Z
}.

(** Defaults of the environment variables [LABOR_RATE_USD] and
    [MATERIAL_RATE_USD]. *)
Definition default_LABOR_RATE : Q := 70.
Definition default_MATERIAL_RATE : Q := 50.

Section Estimator.

(** The two module constants, read from the environment at import. *)
Variable LABOR_RATE : Q.
Variable MATERIAL_RATE : Q.

(** Lines 70 to 81: the arithmetic of the estimate. *)
Definition estimate_locals (profile : Profile) (severity_factor : Q)
    (area_ratio confidence : Q) : Derivation :=
  let effort_multiplier := Py.max 0.6 (Py.min 2.5 (0.9 + area_ratio * 5)) in
  let confidence_factor := Py.max 0.55 (Py.min 1.1 (0.75 + confidence * 0.35)) in
  let labor_hours := base_hours profile * severity_factor * effort_multiplier in
  let material_units := material_factor profile * (0.7 + effort_multiplier * 0.5) in
  let labor_cost := LABOR_RATE * labor_hours in
  let material_cost := MATERIAL_RATE * material_units in
  let overhead_cost := 0.15 * (labor_cost + material_cost) in
  let raw_total := (labor_cost + material_cost + overhead_cost) * confidence_factor in
  let total_cost := (Py.round_int (raw_total / 10) * 10)%Z in
  {| effort_multiplier := effort_multiplier;
     confidence_factor := confidence_factor;
     labor_hours := labor_hours;
     material_units := material_units;
     labor_cost := labor_cost;
     material_cost := material_cost;
     overhead_cost := overhead_cost;
     raw_total := raw_total;
     total_cost := total_cost |}.

(** Lines 67 and 68: the two table lookups, each with its fallback entry
    read by subscript. *)
Definition lookup_profile (damage_type : string) : Py.result Profile :=
  fallback ← Py.getitem TYPE_COMPLEXITY "default";
  Ok (Py.get TYPE_COMPLEXITY (Py.lower damage_type) fallback).

Definition lookup_severity_factor (severity : string) : Py.result Q :=
  fallback ← Py.getitem SEVERITY_LOAD "unknown";
  Ok (Py.get SEVERITY_LOAD severity fallback).

Definition estimate_repair_details (damage_type severity : string)
    (area_ratio confidence : Q) : Py.result RepairEstimate :=
  profile ← lookup_profile damage_type;
  severity_factor ← lookup_severity_factor severity;
  let d := estimate_locals profile severity_factor area_ratio confidence in
  Ok {| re_damage_type := damage_type;
        re_severity := severity;
        re_area_ratio := Py.round area_ratio 4;
        re_labor_hours := Py.round (labor_hours d) 2;
        re_material_units := Py.round (material_units d) 2;
        re_labor_cost := Py.round (labor_cost d) 2;
        re_material_cost := Py.round (material_cost d) 2;
        re_overhead_cost := Py.round (overhead_cost d) 2;
        re_confidence_factor := Py.round (confidence_factor d) 2;
        re_total_cost := total_cost d |}.

End Estimator.

(** ** analyzer.py: the normalizer *)

(** A decoded image: only [img.shape] is read, as [(img_h, img_w, _)]. *)
Record Image : Type := {
  img_h : Z;
  img_w : Z
}.

(** Row [i] of a YOLO [Boxes] object: [xyxy[i]], [conf[i]] and [cls[i]]
    are columns of one array, hence of one length. *)
Record RawDetection : Type := {
  x_min : Q;
  y_min : Q;
  x_max : Q;
  y_max : Q;
  raw_conf : Q;
  raw_cls : Z
}.

(** One element of [results]; [boxes] is [None] when [result.boxes] or
    [boxes.xyxy] is [None]. *)
Record YoloResult : Type := {
  boxes : option (list RawDetection)
}.

(** The detector handle: [model.names] and [model.predict]. *)
Record Model : Type := {
  names : gmap Z string;
  predict : Image -> Py.result (list YoloResult)
}.

(** One element of the returned list, a dict with these keys. *)
Record Detection : Type := {
  det_class : string;
  det_type : string;
  det_conf : Q;
  det_confidence : Q;
  det_x : Q;
  det_y : Q;
  det_width : Q;
  det_height : Q;
  det_area_ratio : Q;
  det_severity : string;
  det_repair_cost : Z;
  det_repair_details : RepairEstimate
}.

(** Calls into the external collaborators, in the order they are made. *)
Inductive event : Type :=
| EvGetModel
| EvPredict (img : Image).

(** The raw detections the loop iterates over: the boxes of [results[0]]. *)
Definition raw_detections (results : list YoloResult) : list RawDetection :=
  match results with
  | [] => []
  | result :: _ =>
      match boxes result with
      | Some xyxy => xyxy
      | None => []
      end
  end.

Section Analyzer.

Variable LABOR_RATE : Q.
Variable MATERIAL_RATE : Q.

(** [cv2.imdecode]: [None] when the bytes do not decode. *)
Variable imdecode : list Byte.byte -> option Image.

(** [model_loader.get_model]. *)
Variable get_model : Py.result Model.

(** The body of the loop over [range(len(xyxy))]. *)
Definition normalize_detection (model : Model) (img_w img_h : Z)
    (raw : RawDetection) : Py.result Detection :=
  let conf := raw_conf raw in
  let cls_id := raw_cls raw in
  let class_name :=
    Py.get (names model) cls_id ("class_" +:+ pretty cls_id) in
  let width := x_max raw - x_min raw in
  let height := y_max raw - y_min raw in
  sr ← get_damage_severity width height (inject_Z img_w) (inject_Z img_h);
  let severity := fst sr in
  let area_ratio := snd sr in
  repair_details ←
    estimate_repair_details LABOR_RATE MATERIAL_RATE
      class_name severity area_ratio conf;
  norm_x ← Py.div (x_min raw) (inject_Z img_w);
  norm_y ← Py.div (y_min raw) (inject_Z img_h);
  norm_w ← Py.div width (inject_Z img_w);
  norm_h ← Py.div height (inject_Z img_h);
  Ok {| det_class := class_name;
        det_type := class_name;
        det_conf := Py.round conf 4;
        det_confidence := Py.round (conf * 100) 2;
        det_x := Py.round norm_x 4;
        det_y := Py.round norm_y 4;
        det_width := Py.round norm_w 4;
        det_height := Py.round norm_h 4;
        det_area_ratio := Py.round area_ratio 4;
        det_severity := severity;
        det_repair_cost := re_total_cost repair_details;
        det_repair_details := repair_details |}.

(** The loop: [detections] is the list built so far; an exception in the
    body leaves the loop and discards it. *)
Fixpoint normalize_loop (model : Model) (img_w img_h : Z)
    (xyxy : list RawDetection) (detections : list Detection)
  : Py.result (list Detection) :=
  match xyxy with
  | [] => Ok detections
  | raw :: rest =>
      d ← normalize_detection model img_w img_h raw;
      normalize_loop model img_w img_h rest (detections ++ [d])
  end.

(** [analyze_image_bytes]: the collaborators called, and the outcome. *)
Definition analyze_image_bytes (image_bytes : list Byte.byte)
  : list event * Py.result (list Detection) :=
  match imdecode image_bytes with
  | None => ([], Raise (Py.ValueError "Unable to decode image bytes"))
  | Some img =>
      match get_model with
      | Raise e => ([EvGetModel], Raise e)
      | Ok model =>
          match predict model img with
          | Raise e => ([EvGetModel; EvPredict img], Raise e)
          | Ok results =>
              ([EvGetModel; EvPredict img],
               normalize_loop model (img_w img) (img_h img)
                 (raw_detections results) [])
          end
      end
  end.

End Analyzer.

(** ** compare_damage.py: the matcher *)

Definition Box : Type := Q * Q * Q * Q.

Definition _det_to_xyxy (det : Detection) : Box :=
  let x := det_x det in
  let y := det_y det in
  let w := det_width det in
  let h := det_height det in
  (x, y, x + w, y + h).

(** The division is only evaluated under the guard [denom > 0]. *)
Definition _iou (box_a box_b : Box) : Q :=
  let '(ax1, ay1, ax2, ay2) := box_a in
  let '(bx1, by1, bx2, by2) := box_b in
  let inter_x1 := Py.max ax1 bx1 in
  let inter_y1 := Py.max ay1 by1 in
  let inter_x2 := Py.min ax2 bx2 in
  let inter_y2 := Py.min ay2 by2 in
  let inter_w := Py.max 0 (inter_x2 - inter_x1) in
  let inter_h := Py.max 0 (inter_y2 - inter_y1) in
  let inter_area := inter_w * inter_h in
  let area_a := Py.max 0 (ax2 - ax1) * Py.max 0 (ay2 - ay1) in
  let area_b := Py.max 0 (bx2 - bx1) * Py.max 0 (by2 - by1) in
  let denom := area_a + area_b - inter_area in
  if Py.ltb 0 denom then inter_area / denom else 0.

(** [pickup_by_class.setdefault(det["class"], []).append(det)]. *)
Definition setdefault_append (pickup_by_class : gmap string (list Detection))
    (det : Detection) : gmap string (list Detection) :=
  <[det_class det := Py.get pickup_by_class (det_class det) [] ++ [det]]>
    pickup_by_class.

Definition bucket_by_class (pickup_detections : list Detection)
  : gmap string (list Detection) :=
  foldl setdefault_append ∅ pickup_detections.

(** The inner loop with its [break]: [matched] after scanning the
    candidates. *)
Fixpoint scan_candidates (ret_box : Box) (candidates : list Detection)
    (iou_threshold : Q) : bool :=
  match candidates with
  | [] => false
  | cand :: rest =>
      if Py.geb (_iou ret_box (_det_to_xyxy cand)) iou_threshold then true
      else scan_candidates ret_box rest iou_threshold
  end.

Definition find_new_damages (pickup_detections return_detections : list Detection)
    (iou_threshold : Q) : list Detection :=
  let pickup_by_class := bucket_by_class pickup_detections in
  foldl
    (fun new_items ret_det =>
       let candidates := Py.get pickup_by_class (det_class ret_det) [] in
       let ret_box := _det_to_xyxy ret_det in
       let matched := scan_candidates ret_box candidates iou_threshold in
       if negb matched then new_items ++ [ret_det] else new_items)
    [] return_detections.

(** The matcher as the specification words it: a return record is new
    when no pickup record of the same class overlaps it by the threshold
    or more. *)
Definition overlaps (iou_threshold : Q) (ret_det pickup_det : Detection) : Prop :=
  det_class pickup_det = det_class ret_det /\
  iou_threshold <= _iou (_det_to_xyxy ret_det) (_det_to_xyxy pickup_det).

Definition is_new (pickup_records : list Detection) (iou_threshold : Q)
    (ret_det : Detection) : bool :=
  forallb
    (fun pickup_det =>
       negb (String.eqb (det_class pickup_det) (det_class ret_det)
             && Qle_bool iou_threshold
                  (_iou (_det_to_xyxy ret_det) (_det_to_xyxy pickup_det))))
    pickup_records.

(** The pickup records a bucket holds: those of class [c]. *)
Definition same_class (c : string) (det : Detection) : bool :=
  String.eqb (det_class det) c.

(** The parts of [_iou]: the intersection area (lines 77 to 83), the area
    of one box (lines 84 and 85) and the denominator (line 86). *)
Definition intersection_area (box_a box_b : Box) : Q :=
  let '(ax1, ay1, ax2, ay2) := box_a in
  let '(bx1, by1, bx2, by2) := box_b in
  Py.max 0 (Py.min ax2 bx2 - Py.max ax1 bx1)
  * Py.max 0 (Py.min ay2 by2 - Py.max ay1 by1).

Definition box_area (box : Box) : Q :=
  let '(x1, y1, x2, y2) := box in
  Py.max 0 (x2 - x1) * Py.max 0 (y2 - y1).

Definition iou_denominator (box_a box_b : Box) : Q :=
  box_area box_a + box_area box_b - intersection_area box_a box_b.

(** Fixtures of scenario C: a scratch and a dent at one place. *)
Definition record_at (class_name : string) (x y w h : Q) : Detection :=
  {| det_class := class_name; det_type := class_name;
     det_conf := 0.9; det_confidence := 90;
     det_x := x; det_y := y; det_width := w; det_height := h;
     det_area_ratio := w * h; det_severity := "low";
     det_repair_cost := 0;
     det_repair_details :=
       {| re_damage_type := class_name; re_severity := "low";
          re_area_ratio := w * h; re_labor_hours := 0; re_material_units := 0;
          re_labor_cost := 0; re_material_cost := 0; re_overhead_cost := 0;
          re_confidence_factor := 1; re_total_cost := 0 |} |}.

Definition pickup_scratch : Detection := record_at "scratch" 0.1 0.1 0.1 0.1.
Definition return_scratch : Detection := record_at "scratch" 0.1 0.1 0.1 0.1.
Definition return_dent : Detection := record_at "dent" 0.1 0.1 0.1 0.1.
Definition return_shifted : Detection := record_at "scratch" 0.15 0.1 0.1 0.1.

(** A raw box that lies within the image [[0,W] x [0,H]]. *)
Definition box_within (W H : Z) (raw : RawDetection) : Prop :=
  0 <= x_min raw /\ x_min raw <= x_max raw /\ x_max raw <= inject_Z W /\
  0 <= y_min raw /\ y_min raw <= y_max raw /\ y_max raw <= inject_Z H.

(** The normalized box of a record lies in the unit square. *)
Definition bbox_in_unit (det : Detection) : Prop :=
  0 <= det_x det <= 1 /\ 0 <= det_y det <= 1 /\
  0 <= det_width det <= 1 /\ 0 <= det_height det <= 1.

(** Fixtures: a 1000x800 image with a scratch and an unmapped class, and a
    decoder that rejects the empty payload. *)
Definition sample_image : Image := {| img_h := 800; img_w := 1000 |}.

Definition sample_rows : list RawDetection :=
  [ {| x_min := 100; y_min := 200; x_max := 300; y_max := 400;
       raw_conf := 0.9; raw_cls := 0 |};
    {| x_min := 0; y_min := 0; x_max := 1000; y_max := 800;
       raw_conf := 0.6; raw_cls := 7 |} ].

Definition sample_model : Model :=
  {| names := {[ 0%Z := "scratch"%string ]};
     predict := fun _ => Ok [ {| boxes := Some sample_rows |} ] |}.

Definition sample_decoder (image_bytes : list Byte.byte) : option Image :=
  match image_bytes with
  | [] => None
  | _ => Some sample_image
  end.


(** [a] is [b] rounded to 4 decimals: within half a unit of the fourth. *)
Definition rounded_4dp (a b : Q) : Prop :=
  b - (1 # 20000) <= a <= b + (1 # 20000).

(** Record [det] is the normalization of raw detection [raw] on a W x H
    image, in the specification's words: the class name is the mapped one
    or [class_<id>], and the box is ([x_min]/W, [y_min]/H, width/W,
    height/H), each rounded to 4 decimals like the confidence. *)
Definition normalized_from (class_names : gmap Z string) (W H : Z)
    (raw : RawDetection) (det : Detection) : Prop :=
  det_class det
  = match class_names !! raw_cls raw with
    | Some name => name
    | None => "class_" +:+ pretty (raw_cls raw)
    end /\
  rounded_4dp (det_x det) (x_min raw / inject_Z W) /\
  rounded_4dp (det_y det) (y_min raw / inject_Z H) /\
  rounded_4dp (det_width det) ((x_max raw - x_min raw) / inject_Z W) /\
  rounded_4dp (det_height det) ((y_max raw - y_min raw) / inject_Z H) /\
  rounded_4dp (det_conf det) (raw_conf raw).

(** The matcher's score as the specification words it: the standard
    axis-aligned intersection over union of two boxes (x1, y1, x2, y2),
    with the denominator areaA + areaB - intersection, and 0 when that
    denominator is not positive. *)
Definition interval_overlap (lo_a hi_a lo_b hi_b : Q) : Q :=
  Qmax 0 (Qmin hi_a hi_b - Qmax lo_a lo_b).

Definition rectangle_area (x1 y1 x2 y2 : Q) : Q :=
  Qmax 0 (x2 - x1) * Qmax 0 (y2 - y1).

Definition iou_spec (box_a box_b : Box) : Q :=
  let '(ax1, ay1, ax2, ay2) := box_a in
  let '(bx1, by1, bx2, by2) := box_b in
  let intersection :=
    interval_overlap ax1 ax2 bx1 bx2 * interval_overlap ay1 ay2 by1 by2 in
  let union :=
    rectangle_area ax1 ay1 ax2 ay2 + rectangle_area bx1 by1 bx2 by2
    - intersection in
  if Qlt_le_dec 0 union then intersection / union else 0.


(** ** Binary64 reading of the two scenarios

    The same lines of [utils.py] over IEEE 754 binary64 numbers, the
    representation of a Python [float], to evaluate the scenarios of the
    specification with the rounding of every operation. *)

Module Binary64.

Import PrimFloat.

(** [max(a, b)] and [min(a, b)] on floats. *)
Definition fmax (a b : float) : float := if ltb a b then b else a.
Definition fmin (a b : float) : float := if ltb b a then b else a.

(** [x / y]: a zero divisor of either sign raises. *)
Definition fdiv (x y : float) : Py.result float :=
  if eqb y 0 then Raise Py.ZeroDivisionError else Ok (div x y).

(** The exact value of a finite float. *)
Definition exact (x : float) : option Q :=
  match Prim2SF x with
  | S754_zero _ => Some 0%Q
  | S754_finite s m e =>
      Some ((if s then inject_Z (Z.neg m) else inject_Z (Z.pos m))
            * Qpower 2 e)%Q
  | S754_infinity _ | S754_nan => None
  end.

(** [round(x)]: exact, ties to even; raises on an infinity or a NaN. *)
Definition fround_int (x : float) : Py.result Z :=
  match exact x with
  | Some q => Ok (Py.round_int q)
  | None =>
      if is_nan x
      then Raise (Py.ValueError "cannot convert float NaN to integer")
      else Raise (Py.OverflowError "cannot convert float infinity to integer")
  end.

Definition get_damage_severity_f64 (width height img_width img_height : float)
  : Py.result (string * float) :=
  let damage_area := (fmax 0 width * fmax 0 height)%float in
  let image_area := fmax 1 (img_width * img_height)%float in
  ratio ← fdiv damage_area image_area;
  let bbox_pixels := damage_area in
  q_low ← fdiv 2500 image_area;
  let low_threshold := fmax 0.04 q_low in
  q_medium ← fdiv 8000 image_area;
  let medium_threshold := fmax 0.12 q_medium in
  let severity :=
    if ltb bbox_pixels 1500 then "low"%string
    else if ltb ratio low_threshold then "low"%string
    else if ltb ratio medium_threshold then "medium"%string
    else "high"%string in
  Ok (severity, ratio).

(** The local variables of [estimate_repair_details], lines 70 to 81. *)
Record Derivation64 : Type := {
  effort_multiplier64 : float;
  confidence_factor64 : float;
  labor_hours64 : float;
  material_units64 : float;
  labor_cost64 : float;
  material_cost64 : float;
  overhead_cost64 : float;
  raw_total64 : float;
  total_cost64 : Py.result Z
}.

Definition estimate_locals_f64 (LABOR_RATE MATERIAL_RATE : float)
    (base_hours material_factor severity_factor : float)
    (area_ratio confidence : float) : Derivation64 :=
  let effort_multiplier := fmax 0.6 (fmin 2.5 (0.9 + area_ratio * 5)%float) in
  let confidence_factor := fmax 0.55 (fmin 1.1 (0.75 + confidence * 0.35)%float) in
  let labor_hours := (base_hours * severity_factor * effort_multiplier)%float in
  let material_units := (material_factor * (0.7 + effort_multiplier * 0.5))%float in
  let labor_cost := (LABOR_RATE * labor_hours)%float in
  let material_cost := (MATERIAL_RATE * material_units)%float in
  let overhead_cost := (0.15 * (labor_cost + material_cost))%float in
  let raw_total := ((labor_cost + material_cost + overhead_cost) * confidence_factor)%float in
  let total_cost := n ← fround_int (raw_total / 10)%float; Ok (n * 10)%Z in
  {| effort_multiplier64 := effort_multiplier;
     confidence_factor64 := confidence_factor;
     labor_hours64 := labor_hours;
     material_units64 := material_units;
     labor_cost64 := labor_cost;
     material_cost64 := material_cost;
     overhead_cost64 := overhead_cost;
     raw_total64 := raw_total;
     total_cost64 := total_cost |}.

(** [x] is within [eps] of the decimal [q]. *)
Definition near (x : float) (q eps : Q) : bool :=
  match exact x with
  | Some v => Qle_bool (q - eps) v && Qle_bool v (q + eps)
  | None => false
  end.

End Binary64.

(** * The rest of the service *)

(** ** utils.py: the cost helper and the preview boxes *)

Section CostHelper.

Variable LABOR_RATE : Q.
Variable MATERIAL_RATE : Q.

(** [get_repair_cost]: the total of the estimate; a caller that leaves
    them out gets [area_ratio] 0.0 and [confidence] 1.0. *)
Definition get_repair_cost (damage_type severity : string)
    (area_ratio confidence : Q) : Py.result Z :=
  details ←
    estimate_repair_details LABOR_RATE MATERIAL_RATE
      damage_type severity area_ratio confidence;
  Ok (re_total_cost details).

End CostHelper.

(** The order of the three labels, to compare two classifications. *)
Definition severity_rank (severity : string) : nat :=
  if String.eqb severity "high" then 2
  else if String.eqb severity "medium" then 1
  else 0.

(** ** compare_damage.py: predicates on records, and the pipeline *)

(** The record has a box of positive width and height. *)
Definition has_area (det : Detection) : bool :=
  Py.ltb 0 (det_width det) && Py.ltb 0 (det_height det).

(** Some pickup record has the class of [ret_det]. *)
Definition class_seen (pickup_records : list Detection) (ret_det : Detection)
  : bool :=
  existsb (fun pickup_det =>
             String.eqb (det_class pickup_det) (det_class ret_det))
    pickup_records.

(** What one bucket holds after [records] of class [c] were appended to a
    dict entry [entry]: a key appears with its first record. *)
Definition bucket_after (entry : option (list Detection))
    (records : list Detection) : option (list Detection) :=
  match entry with
  | Some earlier => Some (earlier ++ records)
  | None => match records with [] => None | _ => Some records end
  end.

(** The fields of one returned dict agree with each other. *)
Definition record_consistent (det : Detection) : Prop :=
  det_type det = det_class det /\
  (det_severity det = "low"%string \/ det_severity det = "medium"%string \/
   det_severity det = "high"%string) /\
  det_repair_cost det = re_total_cost (det_repair_details det) /\
  (det_repair_cost det mod 10 = 0)%Z /\
  re_damage_type (det_repair_details det) = det_class det /\
  re_severity (det_repair_details det) = det_severity det /\
  0 <= det_area_ratio det.

(** The dict returned by [analyze_pickup_return]. *)
Record Comparison : Type := {
  similarity : option Q;
  pickup_detections : list Detection;
  return_detections : list Detection;
  new_damages : list Detection
}.

(** Calls made by the pipeline: those of the analysis of each image, and
    the call of the similarity scorer. *)
Inductive pipeline_event : Type :=
| EvPickup (e : event)
| EvReturn (e : event)
| EvSimilarity.

Section Pipeline.

Variable LABOR_RATE : Q.
Variable MATERIAL_RATE : Q.
Variable imdecode : list Byte.byte -> option Image.
Variable get_model : Py.result Model.

(** [compute_similarity_bytes], the CLIP scorer. *)
Variable compute_similarity_bytes :
  list Byte.byte -> list Byte.byte -> Py.result Q.

Definition analyze_pickup_return (pickup_bytes return_bytes : list Byte.byte)
    (iou_threshold : Q) (compute_similarity : bool)
  : list pipeline_event * Py.result Comparison :=
  let pickup := analyze_image_bytes LABOR_RATE MATERIAL_RATE imdecode
                  get_model pickup_bytes in
  match snd pickup with
  | Raise e => (map EvPickup (fst pickup), Raise e)
  | Ok pickup_dets =>
      let ret := analyze_image_bytes LABOR_RATE MATERIAL_RATE imdecode
                   get_model return_bytes in
      let trace := map EvPickup (fst pickup) ++ map EvReturn (fst ret) in
      match snd ret with
      | Raise e => (trace, Raise e)
      | Ok return_dets =>
          let new_damages :=
            find_new_damages pickup_dets return_dets iou_threshold in
          if compute_similarity then
            match compute_similarity_bytes pickup_bytes return_bytes with
            | Raise e => (trace ++ [EvSimilarity], Raise e)
            | Ok score =>
                (trace ++ [EvSimilarity],
                 Ok {| similarity := Some score;
                       pickup_detections := pickup_dets;
                       return_detections := return_dets;
                       new_damages := new_damages |})
            end
          else
            (trace,
             Ok {| similarity := None;
                   pickup_detections := pickup_dets;
                   return_detections := return_dets;
                   new_damages := new_damages |})
      end
  end.

End Pipeline.

(** ** analyzer.py: [_json_safe] *)

(** Python scalars, and the values [_json_safe] walks: a numpy scalar
    carries what [value.item()] returns, [Other] is any other object (an
    array, a set). *)
Inductive scalar : Type :=
| SNone
| SBool (b : bool)
| SInt (z : Z)
| SFloat (q : Q)
| SStr (s : string).

Inductive dict_key : Type :=
| KeyPlain (s : scalar)
| KeyNumpy (item : scalar).

#[local] Set Warnings "-register-all".

Inductive pyvalue : Type :=
| Plain (s : scalar)
| NpGeneric (item : scalar)
| PyDict (items : list (dict_key * pyvalue))
| PyList (elements : list pyvalue)
| PyTuple (elements : list pyvalue)
| Other (repr : string).

Fixpoint _json_safe (value : pyvalue) : pyvalue :=
  match value with
  | NpGeneric item => Plain item
  | PyDict items =>
      PyDict (map (fun kv => let '(k, v) := kv in (k, _json_safe v)) items)
  | PyList elements => PyList (map _json_safe elements)
  | PyTuple elements => PyList (map _json_safe elements)
  | Plain _ | Other _ => value
  end.

(** No numpy scalar and no tuple is left in a value position. *)
Fixpoint json_clean (value : pyvalue) : bool :=
  match value with
  | NpGeneric _ => false
  | PyTuple _ => false
  | PyDict items => forallb (fun kv => json_clean (snd kv)) items
  | PyList elements => forallb json_clean elements
  | Plain _ | Other _ => true
  end.

(** The keys of a dict, in order; no keys for another value. *)
Definition dict_keys (value : pyvalue) : list dict_key :=
  match value with
  | PyDict items => map fst items
  | _ => []
  end.

(** ** model_loader.py *)

Module ModelLoader.

(** The fallback of the environment variable [YOLO_MODEL_PATH]. *)
Definition DEFAULT_MODEL_PATH : string := "runs/detect/cardd2/weights/best.pt".

Section Loader.

(** [_load_weights]: [YOLO(path)], which raises when the weights do not
    load. *)
Variable _load_weights : string -> Py.result Model.

(** [load_model] on the module global [_model]: the paths loaded in
    order, the global afterwards, and the outcome. *)
Definition load_model (model_path : string) (_model : option Model)
  : list string * option Model * Py.result Model :=
  match _model with
  | Some model => ([], Some model, Ok model)
  | None =>
      match _load_weights model_path with
      | Ok model => ([model_path], Some model, Ok model)
      | Raise exc =>
          let fallback := "yolov8n.pt"%string in
          match _load_weights fallback with
          | Ok model => ([model_path; fallback], Some model, Ok model)
          | Raise e => ([model_path; fallback], None, Raise e)
          end
      end
  end.

Definition get_model (_model : option Model)
  : list string * option Model * Py.result Model :=
  load_model DEFAULT_MODEL_PATH _model.

End Loader.

End ModelLoader.

(** ** app.py: the two endpoints *)

Module App.

(** What an endpoint answers: the JSON content, or an [HTTPException]. *)
Inductive response (A : Type) : Type :=
| Respond (content : A)
| HTTPException (status_code : Z) (detail : string).
Arguments Respond {A} content.
Arguments HTTPException {A} status_code detail.

(** An uploaded file: its name and what [read()] returns. *)
Record UploadFile : Type := {
  filename : option string;
  content : list Byte.byte
}.

(** [name or dflt]: a missing or empty name gives the default. *)
Definition or_default (name : option string) (dflt : string) : string :=
  match name with
  | None => dflt
  | Some EmptyString => dflt
  | Some n => n
  end.

(** [s.split(",", 1)[1]] when ["," in s]: what follows the first comma. *)
Fixpoint after_first_comma (s : string) : option string :=
  match s with
  | EmptyString => None
  | String c rest =>
      if Ascii.eqb c "," then Some rest else after_first_comma rest
  end.

Section Endpoints.

Variable LABOR_RATE : Q.
Variable MATERIAL_RATE : Q.
Variable imdecode : list Byte.byte -> option Image.
Variable get_model : Py.result Model.

(** The environment flag, and [utils.save_image_with_bboxes] as a call
    that returns the output path or raises. *)
Variable SAVE_DEBUG_IMAGES : bool.
Variable save_image_with_bboxes :
  list Byte.byte -> list Detection -> string -> Py.result string.

(** [str(exc)], as formatted into the detail of an error. *)
Variable str_of_exn : Py.exn -> string.

(** [base64.b64decode]. *)
Variable b64decode : string -> Py.result (list Byte.byte).

Definition _run_inference (image_bytes : list Byte.byte)
    (filename : option string) : response (list Detection) :=
  match snd (analyze_image_bytes LABOR_RATE MATERIAL_RATE imdecode get_model
               image_bytes) with
  | Raise exc =>
      HTTPException 500 ("Inference failed: " +:+ str_of_exn exc)
  | Ok detections =>
      if SAVE_DEBUG_IMAGES then
        match save_image_with_bboxes image_bytes detections
                (or_default filename "image.jpg") with
        | Ok _ => Respond detections
        | Raise _ => Respond detections
        end
      else Respond detections
  end.

(** The entry of one upload in a batch that succeeded: the empty list for
    an empty upload, else what the normalizer returned for its bytes. *)
Definition entry_of (upload : UploadFile) (detections : list Detection)
  : Prop :=
  match content upload with
  | [] => detections = []
  | image_bytes =>
      snd (analyze_image_bytes LABOR_RATE MATERIAL_RATE imdecode get_model
             image_bytes) = Ok detections
  end.

(** The loop of [detect_damage] over the uploads. *)
Fixpoint detect_loop (images : list UploadFile)
    (batched_results : list (list Detection))
  : response (list (list Detection)) :=
  match images with
  | [] => Respond batched_results
  | upload :: rest =>
      match content upload with
      | [] => detect_loop rest (batched_results ++ [[]])
      | _ =>
          match _run_inference (content upload) (filename upload) with
          | HTTPException status_code detail =>
              HTTPException status_code detail
          | Respond detections =>
              detect_loop rest (batched_results ++ [detections])
          end
      end
  end.

Definition detect_damage (images : list UploadFile)
  : response (list (list Detection)) :=
  match images with
  | [] => HTTPException 400 "No images were provided"
  | _ => detect_loop images []
  end.

(** [analyze_single_image]: [file] is the multipart upload if any, [body]
    what [request.json()] gives, an object with string members, or the
    exception it raises. *)
Definition analyze_single_image (file : option UploadFile)
    (body : Py.result (gmap string string)) : response (list Detection) :=
  match file with
  | Some upload =>
      let name := or_default (filename upload) "image.jpg" in
      match content upload with
      | [] => HTTPException 400 "Empty image payload"
      | image_bytes => _run_inference image_bytes (Some name)
      end
  | None =>
      match body with
      | Raise _ =>
          HTTPException 400 "Provide an image file or a JSON body with 'image'"
      | Ok data =>
          match data !! "image"%string with
          | None | Some EmptyString =>
              HTTPException 400 "JSON payload must include an 'image' field"
          | Some base64_str =>
              let base64_str :=
                match after_first_comma base64_str with
                | Some rest => rest
                | None => base64_str
                end in
              match b64decode base64_str with
              | Raise exc =>
                  HTTPException 400
                    ("Invalid base64 image: " +:+ str_of_exn exc)
              | Ok [] => HTTPException 400 "Empty image payload"
              | Ok image_bytes =>
                  _run_inference image_bytes (Some "image.jpg"%string)
              end
          end
      end
  end.

End Endpoints.

End App.

(** * Properties *)

(** Runs the binds whose first computation is already a value. *)
Ltac run_bind := cbn [mbind result_bind Py.bind] in *.

(** ** Python arithmetic *)

Lemma ltb_lt (x y : Q) : Py.ltb x y = true <-> x < y.
Proof.
  unfold Py.ltb. rewrite negb_true_iff.
  split.
  - intros H. apply Qnot_le_lt. intros Hle.
    apply Qle_bool_iff in Hle. congruence.
  - intros H. destruct (Qle_bool y x) eqn:E; [|reflexivity].
    apply Qle_bool_iff in E. lra.
Qed.

Lemma ltb_ge (x y : Q) : Py.ltb x y = false <-> y <= x.
Proof.
  unfold Py.ltb. rewrite negb_false_iff. apply Qle_bool_iff.
Qed.

Lemma max_cases (a b : Q) :
  (Py.max a b = a /\ b <= a) \/ (Py.max a b = b /\ a < b).
Proof.
  unfold Py.max. destruct (Py.ltb a b) eqn:E.
  - right. split; [reflexivity|]. now apply ltb_lt.
  - left. split; [reflexivity|]. now apply ltb_ge.
Qed.

Lemma min_cases (a b : Q) :
  (Py.min a b = a /\ a <= b) \/ (Py.min a b = b /\ b < a).
Proof.
  unfold Py.min. destruct (Py.ltb b a) eqn:E.
  - right. split; [reflexivity|]. now apply ltb_lt.
  - left. split; [reflexivity|]. now apply ltb_ge.
Qed.

(** Python's [max] and [min] pick the same argument as the mathematical
    ones. *)
Lemma max_Qmax (a b : Q) : Py.max a b = Qmax a b.
Proof.
  unfold Qmax, GenericMinMax.gmax.
  destruct (max_cases a b) as [[-> H]|[-> H]];
    destruct (Qcompare_spec a b) as [E|E|E]; try reflexivity; lra.
Qed.

Lemma min_Qmin (a b : Q) : Py.min a b = Qmin a b.
Proof.
  unfold Qmin, GenericMinMax.gmin.
  destruct (min_cases a b) as [[-> H]|[-> H]];
    destruct (Qcompare_spec a b) as [E|E|E]; try reflexivity; lra.
Qed.

Lemma div_Ok (x y : Q) : ~ y == 0 -> Py.div x y = Ok (x / y).
Proof.
  intros H. unfold Py.div.
  destruct (Qeq_bool y 0) eqn:E; [|reflexivity].
  apply Qeq_bool_iff in E. contradiction.
Qed.

Lemma div_zero (x y : Q) : y == 0 -> Py.div x y = Raise Py.ZeroDivisionError.
Proof.
  intros H. unfold Py.div. apply Qeq_bool_iff in H. now rewrite H.
Qed.

(** [round] moves its argument by at most one half. *)
Lemma round_int_near (x : Q) :
  inject_Z (Py.round_int x) - (1 # 2) <= x <= inject_Z (Py.round_int x) + (1 # 2).
Proof.
  unfold Py.round_int.
  pose proof (Qfloor_le x) as Hlo.
  pose proof (Qlt_floor x) as Hhi.
  rewrite inject_Z_plus in Hhi. change (inject_Z 1) with 1 in Hhi.
  destruct (Qcompare_spec (x - inject_Z (Qfloor x)) (1 # 2)) as [E|E|E].
  - destruct (Z.even (Qfloor x));
      rewrite ?inject_Z_plus; change (inject_Z 1) with 1; lra.
  - lra.
  - rewrite inject_Z_plus. change (inject_Z 1) with 1. lra.
Qed.

Lemma inject_Z_lt_succ (a b : Z) :
  inject_Z a < inject_Z b + 1 -> (a <= b)%Z.
Proof.
  intros H.
  change 1 with (inject_Z 1) in H. rewrite <- inject_Z_plus in H.
  rewrite <- Zlt_Qlt in H. lia.
Qed.

Lemma round_int_ge (k : Z) (x : Q) :
  inject_Z k <= x -> (k <= Py.round_int x)%Z.
Proof.
  intros H. pose proof (round_int_near x) as [_ Hn].
  apply inject_Z_lt_succ. lra.
Qed.

Lemma round_int_le (k : Z) (x : Q) :
  x <= inject_Z k -> (Py.round_int x <= k)%Z.
Proof.
  intros H. pose proof (round_int_near x) as [Hn _].
  apply inject_Z_lt_succ. lra.
Qed.

Lemma Qdiv_le_scale (a b c : Q) : 0 < b -> a / b <= c -> a <= c * b.
Proof.
  intros Hb H. assert (E : a == a / b * b) by (field; lra).
  rewrite E. apply Qmult_le_compat_r; lra.
Qed.

Lemma Qle_div_scale (a b c : Q) : 0 < b -> c <= a / b -> c * b <= a.
Proof.
  intros Hb H. assert (E : a == a / b * b) by (field; lra).
  rewrite E. apply Qmult_le_compat_r; lra.
Qed.

(** Rounding to [ndigits] decimals keeps a value between two bounds that
    are themselves decimals of [ndigits] digits. *)
Lemma round_between (lo hi : Z) (x : Q) (ndigits : nat) :
  let scale := inject_Z (10 ^ Z.of_nat ndigits) in
  inject_Z lo / scale <= x <= inject_Z hi / scale ->
  inject_Z lo / scale <= Py.round x ndigits <= inject_Z hi / scale.
Proof.
  intros scale [Hlo Hhi]. unfold Py.round. fold scale.
  assert (Hs : 0 < scale).
  { unfold scale. change 0 with (inject_Z 0). rewrite <- Zlt_Qlt.
    apply Z.pow_pos_nonneg; lia. }
  apply Qdiv_le_scale in Hlo; [|exact Hs].
  apply Qle_div_scale in Hhi; [|exact Hs].
  apply round_int_ge in Hlo. apply round_int_le in Hhi.
  rewrite Zle_Qle in Hlo, Hhi.
  split.
  - apply Qle_shift_div_l; [exact Hs|].
    assert (E : inject_Z lo / scale * scale == inject_Z lo) by (field; lra).
    rewrite E. exact Hlo.
  - apply Qle_shift_div_r; [exact Hs|].
    assert (E : inject_Z hi / scale * scale == inject_Z hi) by (field; lra).
    rewrite E. exact Hhi.
Qed.

Lemma round_within (lo hi : Z) (qlo qhi x : Q) (ndigits : nat) :
  qlo == inject_Z lo / inject_Z (10 ^ Z.of_nat ndigits) ->
  qhi == inject_Z hi / inject_Z (10 ^ Z.of_nat ndigits) ->
  qlo <= x <= qhi ->
  qlo <= Py.round x ndigits <= qhi.
Proof.
  intros Elo Ehi H. rewrite Elo, Ehi in *. now apply round_between.
Qed.

(** ** Severity classifier *)

Lemma image_area_nonzero (img_width img_height : Q) :
  ~ Qmax 1 (img_width * img_height) == 0.
Proof.
  pose proof (Q.le_max_l 1 (img_width * img_height)). lra.
Qed.

Lemma ltb_dec (x y : Q) (A : Type) (a b : A) :
  (if Py.ltb x y then a else b) = (if Qlt_le_dec x y then a else b).
Proof.
  destruct (Qlt_le_dec x y) as [H|H].
  - apply ltb_lt in H. now rewrite H.
  - apply ltb_ge in H. now rewrite H.
Qed.

Lemma get_damage_severity_refines (width height img_width img_height : Q) :
  get_damage_severity width height img_width img_height
  = Ok (severity_spec width height img_width img_height).
Proof.
  unfold get_damage_severity, severity_spec, severity_decision.
  rewrite !max_Qmax.
  rewrite !div_Ok by apply image_area_nonzero.
  run_bind.
  rewrite !max_Qmax, !ltb_dec. reflexivity.
Qed.

(** C2. For every box and image size, in particular for every positive image
    width and height, [get_damage_severity] returns without raising the
    ratio [max(0,w)*max(0,h) / max(1, W*H)] and the severity decided in
    order: low when the box area is below 1500, else low when the ratio is
    below [max(0.04, 2500/image_area)], else medium when it is below
    [max(0.12, 8000/image_area)], else high.  A 200x200 box on a 1000x1000
    image has ratio 0.04 and severity medium. *)
Theorem get_damage_severity_decision :
  (forall width height img_width img_height : Q,
      get_damage_severity width height img_width img_height
      = Ok (severity_spec width height img_width img_height)) /\
  (exists ratio : Q,
      get_damage_severity 200 200 1000 1000 = Ok ("medium"%string, ratio) /\
      ratio == 0.04).
Proof.
  split.
  - apply get_damage_severity_refines.
  - eexists. split; [vm_compute; reflexivity|]. reflexivity.
Qed.

(** C10. On an image of fewer than 1500 pixels every box that fits inside
    it is classified low: its area is below the absolute override, so
    medium and high are unreachable. *)
Theorem small_image_always_low (width height img_width img_height : Q) :
  img_width * img_height < 1500 ->
  width <= img_width ->
  height <= img_height ->
  exists ratio : Q,
    get_damage_severity width height img_width img_height
    = Ok ("low"%string, ratio).
Proof.
  intros Harea Hw Hh.
  rewrite get_damage_severity_refines. unfold severity_spec, severity_decision.
  eexists.
  destruct (Qlt_le_dec _ 1500) as [Hlt|Hge]; [reflexivity|].
  exfalso. revert Hge. rewrite <- !max_Qmax.
  destruct (max_cases 0 width) as [[-> H1]|[-> H1]];
    destruct (max_cases 0 height) as [[-> H2]|[-> H2]]; intros Hge; try lra.
  nra.
Qed.

Lemma small_image_always_low_witness :
  exists ratio : Q,
    get_damage_severity 30 40 30 40 = Ok ("low"%string, ratio).
Proof.
  apply (small_image_always_low 30 40 30 40); lra.
Defined.

(** ** Repair cost estimator *)

Lemma lookup_profile_Ok (damage_type : string) :
  lookup_profile damage_type
  = Ok (Py.get TYPE_COMPLEXITY (Py.lower damage_type) default_profile).
Proof. reflexivity. Qed.

Lemma lookup_severity_factor_Ok (severity : string) :
  lookup_severity_factor severity = Ok (Py.get SEVERITY_LOAD severity 0.85).
Proof. reflexivity. Qed.

Lemma TYPE_COMPLEXITY_positive (key : string) (profile : Profile) :
  TYPE_COMPLEXITY !! key = Some profile ->
  0 < base_hours profile /\ 0 < material_factor profile.
Proof.
  intros H. apply elem_of_list_to_map_2 in H.
  repeat (apply elem_of_cons in H as [H|H];
          [inversion H; subst; cbn; split; reflexivity|]).
  now apply elem_of_nil in H.
Qed.

Lemma SEVERITY_LOAD_positive (key : string) (load : Q) :
  SEVERITY_LOAD !! key = Some load -> 0 < load.
Proof.
  intros H. apply elem_of_list_to_map_2 in H.
  repeat (apply elem_of_cons in H as [H|H];
          [inversion H; subst; reflexivity|]).
  now apply elem_of_nil in H.
Qed.

Lemma profile_positive (damage_type : string) :
  let profile := Py.get TYPE_COMPLEXITY (Py.lower damage_type) default_profile in
  0 < base_hours profile /\ 0 < material_factor profile.
Proof.
  unfold Py.get.
  destruct (TYPE_COMPLEXITY !! Py.lower damage_type) as [p|] eqn:E.
  - exact (TYPE_COMPLEXITY_positive _ _ E).
  - split; reflexivity.
Qed.

Lemma severity_factor_positive (severity : string) :
  0 < Py.get SEVERITY_LOAD severity 0.85.
Proof.
  unfold Py.get. destruct (SEVERITY_LOAD !! severity) as [l|] eqn:E.
  - exact (SEVERITY_LOAD_positive _ _ E).
  - reflexivity.
Qed.

(** [max(lo, min(hi, x))] lands in [[lo, hi]] when [lo <= hi]. *)
Lemma clamp_between (lo hi x : Q) :
  lo <= hi -> lo <= Py.max lo (Py.min hi x) <= hi.
Proof.
  intros H.
  destruct (max_cases lo (Py.min hi x)) as [[-> H1]|[-> H1]];
    destruct (min_cases hi x) as [[E H2]|[E H2]]; rewrite ?E in *; lra.
Qed.

Section EstimatorFacts.

Variables LABOR_RATE MATERIAL_RATE : Q.
Hypothesis LABOR_RATE_nonneg : 0 <= LABOR_RATE.
Hypothesis MATERIAL_RATE_nonneg : 0 <= MATERIAL_RATE.

Lemma raw_total_nonneg (profile : Profile) (severity_factor area_ratio confidence : Q) :
  0 < base_hours profile -> 0 < material_factor profile -> 0 < severity_factor ->
  0 <= raw_total (estimate_locals LABOR_RATE MATERIAL_RATE profile
                    severity_factor area_ratio confidence).
Proof.
  intros Hb Hm Hs. cbn [raw_total estimate_locals].
  pose proof (clamp_between 0.6 2.5 (0.9 + area_ratio * 5)) as He.
  pose proof (clamp_between 0.55 1.1 (0.75 + confidence * 0.35)) as Hc.
  set (em := Py.max 0.6 _) in *. set (cf := Py.max 0.55 _) in *.
  assert (He' : 0.6 <= em <= 2.5) by (apply He; lra).
  assert (Hc' : 0.55 <= cf <= 1.1) by (apply Hc; lra).
  clearbody em cf. clear He Hc.
  assert (Hlh : 0 <= base_hours profile * severity_factor * em).
  { apply Qmult_le_0_compat; [apply Qmult_le_0_compat|]; lra. }
  assert (Hmu : 0 <= material_factor profile * (0.7 + em * 0.5)).
  { apply Qmult_le_0_compat; lra. }
  assert (Hlc : 0 <= LABOR_RATE * (base_hours profile * severity_factor * em)).
  { apply Qmult_le_0_compat; assumption. }
  assert (Hmc : 0 <= MATERIAL_RATE * (material_factor profile * (0.7 + em * 0.5))).
  { apply Qmult_le_0_compat; assumption. }
  apply Qmult_le_0_compat; lra.
Qed.

Lemma total_cost_nonneg_multiple (profile : Profile)
    (severity_factor area_ratio confidence : Q) :
  0 < base_hours profile -> 0 < material_factor profile -> 0 < severity_factor ->
  let total := total_cost (estimate_locals LABOR_RATE MATERIAL_RATE profile
                             severity_factor area_ratio confidence) in
  (0 <= total)%Z /\ (total mod 10 = 0)%Z.
Proof.
  intros Hb Hm Hs total.
  pose proof (raw_total_nonneg profile severity_factor area_ratio confidence
                Hb Hm Hs) as Hraw.
  unfold total. cbn [total_cost estimate_locals]. cbn [raw_total estimate_locals] in Hraw.
  split.
  - apply Z.mul_nonneg_nonneg; [|lia].
    apply (round_int_ge 0). change (inject_Z 0) with 0.
    apply Qle_shift_div_l; lra.
  - apply Z.mod_mul. lia.
Qed.

End EstimatorFacts.

Lemma estimate_repair_details_Ok (LABOR_RATE MATERIAL_RATE : Q)
    (damage_type severity : string) (area_ratio confidence : Q) :
  exists r : RepairEstimate,
    estimate_repair_details LABOR_RATE MATERIAL_RATE
      damage_type severity area_ratio confidence = Ok r.
Proof.
  unfold estimate_repair_details.
  rewrite lookup_profile_Ok, lookup_severity_factor_Ok.
  run_bind. eexists. reflexivity.
Qed.

(** C3. Scenario B: a low-severity scratch of area ratio 0.01 detected with
    confidence 0.9, at the default rates 70 and 50.  The profile is
    (0.8, 0.5) and the severity load 0.7; the estimate derives
    effort_multiplier 0.95, confidence_factor 1.065, labor_hours 0.532,
    material_units 0.5875, labor_cost 37.24, material_cost 29.375,
    overhead_cost 9.992 and raw_total 81.59 to the last digit given, and
    the returned total_cost is exactly 80. *)
Theorem scenario_B_scratch_low :
  exists (profile : Profile) (severity_factor : Q) (r : RepairEstimate),
    lookup_profile "scratch" = Ok profile /\
    lookup_severity_factor "low" = Ok severity_factor /\
    (let d := estimate_locals default_LABOR_RATE default_MATERIAL_RATE
                profile severity_factor 0.01 0.9 in
     effort_multiplier d == 0.95 /\
     confidence_factor d == 1.065 /\
     labor_hours d == 0.532 /\
     material_units d == 0.5875 /\
     labor_cost d == 37.24 /\
     material_cost d == 29.375 /\
     9.9915 <= overhead_cost d <= 9.9925 /\
     81.585 <= raw_total d <= 81.595 /\
     total_cost d = 80%Z) /\
    estimate_repair_details default_LABOR_RATE default_MATERIAL_RATE
      "scratch" "low" 0.01 0.9 = Ok r /\
    re_total_cost r = 80%Z.
Proof.
  eexists _, _, _.
  split; [reflexivity|]. split; [reflexivity|].
  split.
  - cbv zeta. repeat split; vm_compute; reflexivity || discriminate.
  - split; [reflexivity|]. vm_compute. reflexivity.
Qed.

(** C4. For every damage type, severity label, area ratio (in particular
    every non-negative one) and confidence, at non-negative rates, the
    estimator returns an estimate whose total_cost is a non-negative
    multiple of 10 and whose confidence_factor, as derived and as returned
    (rounded to 2 decimals), lies in [0.55, 1.1]. *)
Theorem total_cost_multiple_of_10 (LABOR_RATE MATERIAL_RATE : Q)
    (damage_type severity : string) (area_ratio confidence : Q) :
  0 <= LABOR_RATE ->
  0 <= MATERIAL_RATE ->
  0 <= area_ratio ->
  exists (profile : Profile) (severity_factor : Q) (r : RepairEstimate),
    lookup_profile damage_type = Ok profile /\
    lookup_severity_factor severity = Ok severity_factor /\
    estimate_repair_details LABOR_RATE MATERIAL_RATE
      damage_type severity area_ratio confidence = Ok r /\
    (0 <= re_total_cost r)%Z /\
    (exists k : Z, re_total_cost r = (10 * k)%Z) /\
    (re_total_cost r mod 10 = 0)%Z /\
    0.55 <= re_confidence_factor r <= 1.1 /\
    0.55 <= confidence_factor
              (estimate_locals LABOR_RATE MATERIAL_RATE profile
                 severity_factor area_ratio confidence) <= 1.1.
Proof.
  intros HL HM _.
  unfold estimate_repair_details.
  rewrite lookup_profile_Ok, lookup_severity_factor_Ok.
  run_bind.
  eexists _, _, _. split; [reflexivity|]. split; [reflexivity|].
  split; [reflexivity|].
  destruct (profile_positive damage_type) as [Hb Hm].
  pose proof (severity_factor_positive severity) as Hs.
  pose proof (total_cost_nonneg_multiple LABOR_RATE MATERIAL_RATE HL HM
                _ _ area_ratio confidence Hb Hm Hs) as [H0 H10].
  cbn [re_total_cost re_confidence_factor].
  assert (Hcf : 0.55 <= confidence_factor
              (estimate_locals LABOR_RATE MATERIAL_RATE
                 (Py.get TYPE_COMPLEXITY (Py.lower damage_type) default_profile)
                 (Py.get SEVERITY_LOAD severity 0.85) area_ratio confidence) <= 1.1).
  { cbn [confidence_factor estimate_locals]. apply clamp_between. lra. }
  split; [exact H0|]. split.
  { cbn [total_cost estimate_locals]. eexists. apply Z.mul_comm. }
  split; [exact H10|]. split; [|exact Hcf].
  apply (round_within 55 110); [reflexivity|reflexivity|exact Hcf].
Qed.

Lemma total_cost_multiple_of_10_witness :
  exists (profile : Profile) (severity_factor : Q) (r : RepairEstimate),
    lookup_profile "dent" = Ok profile /\
    lookup_severity_factor "high" = Ok severity_factor /\
    estimate_repair_details 70 50 "dent" "high" 0.2 0.8 = Ok r /\
    (0 <= re_total_cost r)%Z /\
    (exists k : Z, re_total_cost r = (10 * k)%Z) /\
    (re_total_cost r mod 10 = 0)%Z /\
    0.55 <= re_confidence_factor r <= 1.1 /\
    0.55 <= confidence_factor
              (estimate_locals 70 50 profile severity_factor 0.2 0.8) <= 1.1.
Proof.
  apply (total_cost_multiple_of_10 70 50 "dent" "high" 0.2 0.8); lra.
Defined.

(** C9. The estimator never raises: for every damage type, severity label,
    area ratio and confidence it returns an estimate.  The type is looked
    up lower-cased, so two spellings that differ in case share a profile;
    a type outside the table gets the default profile (1.0, 0.9) and a
    severity outside the table the unknown load 0.85. *)
Theorem estimate_repair_details_total (LABOR_RATE MATERIAL_RATE : Q)
    (damage_type severity : string) (area_ratio confidence : Q) :
  exists (profile : Profile) (severity_factor : Q) (r : RepairEstimate),
    estimate_repair_details LABOR_RATE MATERIAL_RATE
      damage_type severity area_ratio confidence = Ok r /\
    lookup_profile damage_type = Ok profile /\
    lookup_severity_factor severity = Ok severity_factor /\
    (TYPE_COMPLEXITY !! Py.lower damage_type = None ->
     profile = {| base_hours := 1.0; material_factor := 0.9 |}) /\
    (SEVERITY_LOAD !! severity = None -> severity_factor = 0.85) /\
    (forall other : string,
        Py.lower other = Py.lower damage_type ->
        lookup_profile other = Ok profile) /\
    re_damage_type r = damage_type /\
    re_severity r = severity /\
    (let d := estimate_locals LABOR_RATE MATERIAL_RATE profile
                severity_factor area_ratio confidence in
     re_labor_hours r = Py.round (labor_hours d) 2 /\
     re_material_units r = Py.round (material_units d) 2 /\
     re_total_cost r = total_cost d).
Proof.
  unfold estimate_repair_details.
  rewrite lookup_profile_Ok, lookup_severity_factor_Ok.
  run_bind.
  eexists _, _, _. split; [reflexivity|].
  split; [reflexivity|]. split; [reflexivity|].
  split. { intros E. unfold Py.get. now rewrite E. }
  split. { intros E. unfold Py.get. now rewrite E. }
  split. { intros other E. rewrite lookup_profile_Ok, E. reflexivity. }
  cbn. repeat split.
Qed.

(** Spellings in another case, and labels outside both tables. *)
Example estimate_unrecognized_inputs :
  lookup_profile "SCRATCH" = lookup_profile "scratch" /\
  lookup_profile "Glass Shatter" = Ok {| base_hours := 2.2; material_factor := 1.6 |} /\
  lookup_profile "rust" = Ok {| base_hours := 1.0; material_factor := 0.9 |} /\
  lookup_severity_factor "severe" = Ok 0.85 /\
  lookup_severity_factor "Low" = Ok 0.85.
Proof. repeat split. Qed.

(** ** Normalizer *)

Section AnalyzerFacts.

Variables LABOR_RATE MATERIAL_RATE : Q.
Variable imdecode : list Byte.byte -> option Image.
Variable get_model : Py.result Model.

Lemma unit_fraction (a w : Q) : 0 < w -> 0 <= a <= w -> 0 <= a / w <= 1.
Proof.
  intros Hw [H0 H1]. split.
  - apply Qle_shift_div_l; lra.
  - apply Qle_shift_div_r; lra.
Qed.

Lemma round4_unit (x : Q) : 0 <= x <= 1 -> 0 <= Py.round x 4 <= 1.
Proof.
  intros H. apply (round_within 0 10000); [reflexivity|reflexivity|exact H].
Qed.

(** With positive dimensions the loop body returns a record, and the box
    of the record is in the unit square when the raw box is in the image. *)
Lemma normalize_detection_Ok (model : Model) (W H : Z) (raw : RawDetection) :
  (0 < W)%Z -> (0 < H)%Z ->
  exists det : Detection,
    normalize_detection LABOR_RATE MATERIAL_RATE model W H raw = Ok det /\
    det_class det = Py.get (names model) (raw_cls raw)
                      ("class_" +:+ pretty (raw_cls raw)) /\
    (box_within W H raw -> bbox_in_unit det).
Proof.
  intros HW HH.
  assert (HWq : 0 < inject_Z W) by (change 0 with (inject_Z 0); now rewrite <- Zlt_Qlt).
  assert (HHq : 0 < inject_Z H) by (change 0 with (inject_Z 0); now rewrite <- Zlt_Qlt).
  unfold normalize_detection.
  rewrite get_damage_severity_refines.
  run_bind.
  destruct (estimate_repair_details_Ok LABOR_RATE MATERIAL_RATE
              (Py.get (names model) (raw_cls raw) ("class_" +:+ pretty (raw_cls raw)))
              (fst (severity_spec (x_max raw - x_min raw) (y_max raw - y_min raw)
                      (inject_Z W) (inject_Z H)))
              (snd (severity_spec (x_max raw - x_min raw) (y_max raw - y_min raw)
                      (inject_Z W) (inject_Z H)))
              (raw_conf raw)) as [r Hr].
  rewrite Hr. cbn [Py.bind].
  rewrite !div_Ok by lra. cbn [Py.bind].
  eexists. split; [reflexivity|]. split; [reflexivity|].
  intros (Hx0 & Hx & HxW & Hy0 & Hy & HyH).
  unfold bbox_in_unit. cbn [det_x det_y det_width det_height].
  repeat split; apply round4_unit; apply unit_fraction; lra.
Qed.

Lemma normalize_loop_Ok (model : Model) (W H : Z) (xyxy : list RawDetection) :
  (0 < W)%Z -> (0 < H)%Z ->
  forall detections : list Detection,
  exists new : list Detection,
    normalize_loop LABOR_RATE MATERIAL_RATE model W H xyxy detections
    = Ok (detections ++ new) /\
    Forall2
      (fun raw det =>
         normalize_detection LABOR_RATE MATERIAL_RATE model W H raw = Ok det)
      xyxy new.
Proof.
  intros HW HH. induction xyxy as [|raw rest IH]; intros detections.
  - exists []. cbn. rewrite app_nil_r. split; [reflexivity|constructor].
  - destruct (normalize_detection_Ok model W H raw HW HH) as (d & Hd & _).
    cbn [normalize_loop]. rewrite Hd. run_bind.
    destruct (IH (detections ++ [d])) as (new & Hnew & Hall).
    exists (d :: new). split.
    + rewrite Hnew, <- app_assoc. reflexivity.
    + constructor; assumption.
Qed.

End AnalyzerFacts.

Lemma round_4dp (x : Q) : rounded_4dp (Py.round x 4) x.
Proof.
  unfold rounded_4dp, Py.round.
  change (inject_Z (10 ^ Z.of_nat 4)) with 10000.
  pose proof (round_int_near (x * 10000)) as [Hlo Hhi].
  set (r := inject_Z (Py.round_int (x * 10000))) in *. clearbody r.
  split.
  - apply Qle_shift_div_l; lra.
  - apply Qle_shift_div_r; lra.
Qed.

(** The record the loop body builds from one raw detection. *)
Lemma normalize_detection_record (LABOR_RATE MATERIAL_RATE : Q)
    (model : Model) (W H : Z) (raw : RawDetection) (det : Detection) :
  normalize_detection LABOR_RATE MATERIAL_RATE model W H raw = Ok det ->
  normalized_from (names model) W H raw det.
Proof.
  unfold normalize_detection. rewrite get_damage_severity_refines. run_bind.
  match goal with
  | |- context [estimate_repair_details ?l ?m ?c ?s ?a ?k] =>
      destruct (estimate_repair_details_Ok l m c s a k) as [r ->]
  end.
  run_bind. unfold Py.div.
  destruct (Qeq_bool (inject_Z W) 0); [discriminate|]. run_bind.
  destruct (Qeq_bool (inject_Z H) 0); [discriminate|]. run_bind.
  intros [= <-]. unfold normalized_from.
  cbn [det_class det_x det_y det_width det_height det_conf].
  repeat split; try apply round_4dp.
Qed.

(** C6. On an image of positive width and height the normalizer returns
    exactly one record per box of the detector's result, in the
    detector's order: the output has the length of the box list, and
    record [i] is the normalization of box [i] (its class name, its
    coordinates divided by the image size and its confidence, rounded to
    4 decimals).  When the raw box lies within the image, x, y, width and
    height of its record are all in [0,1]. *)
Theorem normalizer_one_record_per_detection
    (LABOR_RATE MATERIAL_RATE : Q)
    (imdecode : list Byte.byte -> option Image) (get_model : Py.result Model)
    (image_bytes : list Byte.byte) (img : Image) (model : Model)
    (result : YoloResult) (others : list YoloResult)
    (xyxy : list RawDetection) :
  imdecode image_bytes = Some img ->
  get_model = Ok model ->
  predict model img = Ok (result :: others) ->
  boxes result = Some xyxy ->
  (0 < img_w img)%Z ->
  (0 < img_h img)%Z ->
  exists detections : list Detection,
    snd (analyze_image_bytes LABOR_RATE MATERIAL_RATE imdecode get_model
           image_bytes) = Ok detections /\
    length detections = length xyxy /\
    (forall (i : nat) (raw : RawDetection),
        xyxy !! i = Some raw ->
        exists det : Detection,
          detections !! i = Some det /\
          normalized_from (names model) (img_w img) (img_h img) raw det /\
          (box_within (img_w img) (img_h img) raw -> bbox_in_unit det)).
Proof.
  intros Himg Hmodel Hres Hboxes HW HH.
  unfold analyze_image_bytes. rewrite Himg, Hmodel, Hres. cbn [snd].
  cbn [raw_detections]. rewrite Hboxes.
  destruct (normalize_loop_Ok LABOR_RATE MATERIAL_RATE model _ _
              xyxy HW HH []) as (new & Hnew & Hall).
  exists new. split; [exact Hnew|].
  split; [symmetry; exact (Forall2_length _ _ _ Hall)|].
  intros i raw Hi.
  destruct (Forall2_lookup_l _ _ _ _ _ Hall Hi) as (det & Hdet & Hnorm).
  exists det. split; [exact Hdet|].
  split; [exact (normalize_detection_record _ _ _ _ _ _ _ Hnorm)|].
  destruct (normalize_detection_Ok LABOR_RATE MATERIAL_RATE model _ _ raw HW HH)
    as (det' & Hnorm' & _ & Hbox).
  rewrite Hnorm in Hnorm'. injection Hnorm' as <-. exact Hbox.
Qed.

Lemma normalizer_one_record_per_detection_witness :
  exists detections : list Detection,
    snd (analyze_image_bytes 70 50 sample_decoder (Ok sample_model)
           [Byte.x00]) = Ok detections /\
    length detections = length sample_rows /\
    (forall (i : nat) (raw : RawDetection),
        sample_rows !! i = Some raw ->
        exists det : Detection,
          detections !! i = Some det /\
          normalized_from (names sample_model)
            (img_w sample_image) (img_h sample_image) raw det /\
          (box_within (img_w sample_image) (img_h sample_image) raw ->
           bbox_in_unit det)).
Proof.
  apply (normalizer_one_record_per_detection 70 50 sample_decoder
           (Ok sample_model) [Byte.x00] sample_image sample_model
           {| boxes := Some sample_rows |} [] sample_rows);
    reflexivity.
Defined.

(** Without a result, or without boxes in the first result, the list is
    empty. *)
Lemma normalizer_no_boxes
    (LABOR_RATE MATERIAL_RATE : Q)
    (imdecode : list Byte.byte -> option Image) (get_model : Py.result Model)
    (image_bytes : list Byte.byte) (img : Image) (model : Model)
    (results : list YoloResult) :
  imdecode image_bytes = Some img ->
  get_model = Ok model ->
  predict model img = Ok results ->
  results = [] \/ (exists result others,
                     results = result :: others /\ boxes result = None) ->
  snd (analyze_image_bytes LABOR_RATE MATERIAL_RATE imdecode get_model
         image_bytes) = Ok [].
Proof.
  intros Himg Hmodel Hres Hnone.
  unfold analyze_image_bytes. rewrite Himg, Hmodel, Hres. cbn [snd].
  destruct Hnone as [->|(result & others & -> & Hb)]; [reflexivity|].
  cbn [raw_detections]. now rewrite Hb.
Qed.

(** The two sample detections as the normalizer reports them. *)
Example sample_image_detections :
  exists d1 d2 : Detection,
    snd (analyze_image_bytes 70 50 sample_decoder
           (Ok sample_model) [Byte.x00]) = Ok [d1; d2] /\
    det_class d1 = "scratch"%string /\ det_class d2 = "class_7"%string /\
    det_x d1 == 0.1 /\ det_y d1 == 0.25 /\
    det_width d1 == 0.2 /\ det_height d1 == 0.25 /\
    det_severity d1 = "medium"%string /\ det_severity d2 = "high"%string.
Proof.
  eexists _, _. split; [vm_compute; reflexivity|].
  repeat split; vm_compute; reflexivity.
Qed.




(** The empty payload is rejected before the model is fetched; a payload
    that decodes reaches the detector. *)
Example sample_decoder_runs :
  analyze_image_bytes 70 50 sample_decoder (Ok sample_model) []
  = ([], Raise (Py.ValueError "Unable to decode image bytes")) /\
  fst (analyze_image_bytes 70 50 sample_decoder (Ok sample_model) [Byte.x00])
  = [EvGetModel; EvPredict sample_image].
Proof. split; reflexivity. Qed.

(** ** Matcher *)

(** *** Buckets *)

Lemma get_setdefault_append (m : gmap string (list Detection))
    (det : Detection) (c : string) :
  Py.get (setdefault_append m det) c []
  = Py.get m c [] ++ (if same_class c det then [det] else []).
Proof.
  unfold setdefault_append, Py.get, same_class.
  destruct (String.eqb_spec (det_class det) c) as [->|Hne].
  - rewrite lookup_insert_eq. reflexivity.
  - rewrite lookup_insert_ne by exact Hne. now rewrite app_nil_r.
Qed.

Lemma get_foldl_setdefault_append (pickup : list Detection) (c : string) :
  forall m : gmap string (list Detection),
    Py.get (foldl setdefault_append m pickup) c []
    = Py.get m c [] ++ List.filter (same_class c) pickup.
Proof.
  induction pickup as [|det rest IH]; intros m; cbn [foldl List.filter].
  - now rewrite app_nil_r.
  - rewrite IH, get_setdefault_append, <- app_assoc.
    destruct (same_class c det); reflexivity.
Qed.

(** The bucket of a class holds the pickup records of that class, in
    their original order. *)
Lemma bucket_by_class_get (pickup : list Detection) (c : string) :
  Py.get (bucket_by_class pickup) c [] = List.filter (same_class c) pickup.
Proof.
  unfold bucket_by_class. rewrite get_foldl_setdefault_append.
  unfold Py.get. now rewrite lookup_empty.
Qed.

(** *** The scan and the outer loop *)

Lemma scan_candidates_bucket (ret_det : Detection) (pickup : list Detection)
    (iou_threshold : Q) :
  scan_candidates (_det_to_xyxy ret_det)
    (List.filter (same_class (det_class ret_det)) pickup) iou_threshold
  = negb (is_new pickup iou_threshold ret_det).
Proof.
  induction pickup as [|pd rest IH]; [reflexivity|].
  cbn [List.filter is_new forallb]. fold (is_new rest iou_threshold ret_det).
  unfold same_class at 1.
  destruct (String.eqb (det_class pd) (det_class ret_det)); cbn [andb negb].
  - cbn [scan_candidates]. unfold Py.geb.
    destruct (Qle_bool iou_threshold _); cbn [negb andb]; [reflexivity|exact IH].
  - exact IH.
Qed.

Lemma find_new_damages_loop (pickup ret : list Detection) (iou_threshold : Q) :
  forall acc : list Detection,
    foldl
      (fun new_items ret_det =>
         let candidates :=
           Py.get (bucket_by_class pickup) (det_class ret_det) [] in
         let ret_box := _det_to_xyxy ret_det in
         let matched := scan_candidates ret_box candidates iou_threshold in
         if negb matched then new_items ++ [ret_det] else new_items)
      acc ret
    = acc ++ List.filter (is_new pickup iou_threshold) ret.
Proof.
  induction ret as [|ret_det rest IH]; intros acc; cbn [foldl List.filter].
  - now rewrite app_nil_r.
  - rewrite IH. cbv zeta.
    rewrite bucket_by_class_get, scan_candidates_bucket, negb_involutive.
    destruct (is_new pickup iou_threshold ret_det);
      [now rewrite <- app_assoc|reflexivity].
Qed.

Lemma find_new_damages_is_filter (pickup ret : list Detection) (iou_threshold : Q) :
  find_new_damages pickup ret iou_threshold
  = List.filter (is_new pickup iou_threshold) ret.
Proof.
  unfold find_new_damages. cbv zeta. now rewrite find_new_damages_loop.
Qed.

Lemma is_new_iff (pickup : list Detection) (iou_threshold : Q) (ret_det : Detection) :
  is_new pickup iou_threshold ret_det = true <->
  ~ exists pickup_det : Detection,
      In pickup_det pickup /\ overlaps iou_threshold ret_det pickup_det.
Proof.
  unfold is_new, overlaps. rewrite forallb_forall. split.
  - intros H (pd & Hin & Hc & Hiou).
    specialize (H pd Hin). apply negb_true_iff in H.
    apply String.eqb_eq in Hc. apply Qle_bool_iff in Hiou.
    rewrite Hc, Hiou in H. discriminate.
  - intros H pd Hin. apply negb_true_iff.
    destruct (String.eqb_spec (det_class pd) (det_class ret_det)) as [Hc|Hc];
      [|reflexivity].
    destruct (Qle_bool iou_threshold _) eqn:E; [|reflexivity].
    exfalso. apply H. exists pd. apply Qle_bool_iff in E. auto.
Qed.




(** The specification's IoU on three pairs of boxes: identical, shifted
    by half a width, and disjoint. *)
Example iou_spec_values :
  iou_spec (0.1, 0.1, 0.2, 0.2) (0.1, 0.1, 0.2, 0.2) == 1 /\
  iou_spec (0.1, 0.1, 0.2, 0.2) (0.15, 0.1, 0.25, 0.2) == 1 # 3 /\
  iou_spec (0.1, 0.1, 0.2, 0.2) (0.3, 0.1, 0.4, 0.2) == 0.
Proof. repeat split; vm_compute; reflexivity. Qed.


(** Scenarios C and D. *)
Example scenario_C_matcher :
  find_new_damages [pickup_scratch] [return_scratch; return_dent] 0.3
  = [return_dent].
Proof. vm_compute. reflexivity. Qed.

Example scenario_D_empty_pickup :
  find_new_damages [] [return_dent; return_scratch; return_dent] 0.3
  = [return_dent; return_scratch; return_dent].
Proof. vm_compute. reflexivity. Qed.

(** *** IoU *)

Lemma _iou_unfold (box_a box_b : Box) :
  _iou box_a box_b
  = if Py.ltb 0 (iou_denominator box_a box_b)
    then intersection_area box_a box_b / iou_denominator box_a box_b
    else 0.
Proof.
  destruct box_a as [[[ax1 ay1] ax2] ay2], box_b as [[[bx1 by1] bx2] by2].
  reflexivity.
Qed.

Lemma max_comm (a b : Q) : Py.max a b == Py.max b a.
Proof. rewrite !max_Qmax. apply Q.max_comm. Qed.

Lemma min_comm (a b : Q) : Py.min a b == Py.min b a.
Proof. rewrite !min_Qmin. apply Q.min_comm. Qed.

Lemma max_0_compat (a b : Q) : a == b -> Py.max 0 a == Py.max 0 b.
Proof. intros E. rewrite !max_Qmax. now rewrite E. Qed.

Lemma intersection_area_comm (box_a box_b : Box) :
  intersection_area box_a box_b == intersection_area box_b box_a.
Proof.
  destruct box_a as [[[ax1 ay1] ax2] ay2], box_b as [[[bx1 by1] bx2] by2].
  cbn [intersection_area].
  rewrite (max_0_compat (Py.min ax2 bx2 - Py.max ax1 bx1)
                        (Py.min bx2 ax2 - Py.max bx1 ax1))
    by (rewrite (min_comm ax2 bx2), (max_comm ax1 bx1); reflexivity).
  rewrite (max_0_compat (Py.min ay2 by2 - Py.max ay1 by1)
                        (Py.min by2 ay2 - Py.max by1 ay1))
    by (rewrite (min_comm ay2 by2), (max_comm ay1 by1); reflexivity).
  reflexivity.
Qed.

Lemma iou_denominator_comm (box_a box_b : Box) :
  iou_denominator box_a box_b == iou_denominator box_b box_a.
Proof.
  unfold iou_denominator. rewrite (intersection_area_comm box_a box_b). ring.
Qed.

Lemma _iou_comm (box_a box_b : Box) : _iou box_a box_b == _iou box_b box_a.
Proof.
  rewrite !_iou_unfold.
  pose proof (iou_denominator_comm box_a box_b) as Hd.
  pose proof (intersection_area_comm box_a box_b) as Hi.
  destruct (Py.ltb 0 (iou_denominator box_a box_b)) eqn:Ea;
    destruct (Py.ltb 0 (iou_denominator box_b box_a)) eqn:Eb.
  - now rewrite Hd, Hi.
  - apply ltb_lt in Ea. apply ltb_ge in Eb. lra.
  - apply ltb_ge in Ea. apply ltb_lt in Eb. lra.
  - reflexivity.
Qed.

Lemma _iou_self (x1 y1 x2 y2 : Q) :
  x1 < x2 -> y1 < y2 -> _iou (x1, y1, x2, y2) (x1, y1, x2, y2) == 1.
Proof.
  intros Hx Hy. rewrite _iou_unfold.
  unfold iou_denominator. cbn [intersection_area box_area].
  destruct (max_cases x1 x1) as [[-> _]|[-> _]];
    destruct (min_cases x2 x2) as [[-> _]|[-> _]];
    destruct (max_cases y1 y1) as [[-> _]|[-> _]];
    destruct (min_cases y2 y2) as [[-> _]|[-> _]].
  all: destruct (max_cases 0 (x2 - x1)) as [[-> H1]|[-> H1]]; [lra|];
       destruct (max_cases 0 (y2 - y1)) as [[-> H2]|[-> H2]]; [lra|].
  all: assert (Ha : 0 < (x2 - x1) * (y2 - y1)) by (apply Qmult_lt_0_compat; lra).
  all: set (a := (x2 - x1) * (y2 - y1)) in *.
  all: destruct (Py.ltb 0 (a + a - a)) eqn:E;
       [field; lra | apply ltb_ge in E; lra].
Qed.

(** C7. The IoU of a box of positive width and height with itself is 1;
    IoU is symmetric; and IoU is 0 whenever the denominator
    areaA + areaB - intersection is not positive. *)
Theorem iou_self_symmetric_degenerate :
  (forall x1 y1 x2 y2 : Q,
      x1 < x2 -> y1 < y2 -> _iou (x1, y1, x2, y2) (x1, y1, x2, y2) == 1) /\
  (forall box_a box_b : Box, _iou box_a box_b == _iou box_b box_a) /\
  (forall box_a box_b : Box,
      iou_denominator box_a box_b <= 0 -> _iou box_a box_b = 0).
Proof.
  split; [exact _iou_self|]. split; [exact _iou_comm|].
  intros box_a box_b H. rewrite _iou_unfold.
  apply ltb_ge in H. now rewrite H.
Qed.

Corollary _iou_self_record (det : Detection) :
  0 < det_width det -> 0 < det_height det ->
  _iou (_det_to_xyxy det) (_det_to_xyxy det) == 1.
Proof.
  intros Hw Hh. unfold _det_to_xyxy. apply _iou_self; lra.
Qed.

(** *** Threshold *)

Lemma is_new_threshold_mono (pickup : list Detection) (t1 t2 : Q)
    (ret_det : Detection) :
  t1 <= t2 ->
  is_new pickup t1 ret_det = true -> is_new pickup t2 ret_det = true.
Proof.
  intros Ht. rewrite !is_new_iff. intros H (pd & Hin & Hc & Hiou).
  apply H. exists pd. unfold overlaps. repeat split; [assumption..|lra].
Qed.

Lemma filter_sublist_mono {A} (p q : A -> bool) (l : list A) :
  (forall x, p x = true -> q x = true) ->
  sublist (List.filter p l) (List.filter q l).
Proof.
  intros Hpq. induction l as [|x l IH]; cbn [List.filter]; [constructor|].
  destruct (p x) eqn:Ep.
  - rewrite (Hpq x Ep). now constructor.
  - destruct (q x); [now constructor|exact IH].
Qed.

(** C8. The matcher is a function of its three inputs: two calls on the
    same lists and threshold return the same list.  Raising the threshold
    never removes a record from the result: the result at the lower
    threshold is a subsequence of the result at the higher one, hence not
    longer. *)
Theorem find_new_damages_threshold_monotone
    (pickup_records return_records : list Detection) (t1 t2 : Q) :
  t1 <= t2 ->
  (forall first second : list Detection,
      first = find_new_damages pickup_records return_records t1 ->
      second = find_new_damages pickup_records return_records t1 ->
      first = second) /\
  sublist (find_new_damages pickup_records return_records t1)
          (find_new_damages pickup_records return_records t2) /\
  (length (find_new_damages pickup_records return_records t1)
   <= length (find_new_damages pickup_records return_records t2))%nat.
Proof.
  intros Ht. split; [congruence|].
  assert (Hsub : sublist (find_new_damages pickup_records return_records t1)
                         (find_new_damages pickup_records return_records t2)).
  { rewrite !find_new_damages_is_filter. apply filter_sublist_mono.
    intros rd. now apply is_new_threshold_mono. }
  split; [exact Hsub|]. now apply sublist_length.
Qed.

Lemma find_new_damages_threshold_monotone_witness :
  (forall first second : list Detection,
      first = find_new_damages [pickup_scratch] [return_shifted; return_dent] 0.3 ->
      second = find_new_damages [pickup_scratch] [return_shifted; return_dent] 0.3 ->
      first = second) /\
  sublist (find_new_damages [pickup_scratch] [return_shifted; return_dent] 0.3)
          (find_new_damages [pickup_scratch] [return_shifted; return_dent] 0.5) /\
  (length (find_new_damages [pickup_scratch] [return_shifted; return_dent] 0.3)
   <= length (find_new_damages [pickup_scratch] [return_shifted; return_dent] 0.5))%nat.
Proof.
  apply (find_new_damages_threshold_monotone
           [pickup_scratch] [return_shifted; return_dent] 0.3 0.5).
  lra.
Defined.

(** A shifted scratch overlaps the pickup scratch by one third: it is
    matched at threshold 0.3 and new at threshold 0.5. *)
Example threshold_changes_result :
  _iou (_det_to_xyxy return_shifted) (_det_to_xyxy pickup_scratch) == 1 # 3 /\
  find_new_damages [pickup_scratch] [return_shifted; return_dent] 0.3
  = [return_dent] /\
  find_new_damages [pickup_scratch] [return_shifted; return_dent] 0.5
  = [return_shifted; return_dent].
Proof. repeat split; vm_compute; reflexivity. Qed.

(** ** The scenarios in binary64 *)

(** Scenario A with rounding: the quotient 40000/1000000 is the float
    0.04 itself, so it is not below the low threshold. *)
Example scenario_A_binary64 :
  Binary64.get_damage_severity_f64 200 200 1000 1000
  = Ok ("medium"%string, 0.04%float).
Proof. vm_compute. reflexivity. Qed.

(** Scenario B with rounding: every derived value is within 1e-12 of the
    exact one, and the total is 80. *)
Example scenario_B_binary64 :
  let d := Binary64.estimate_locals_f64 70 50 0.8 0.5 0.7 0.01 0.9 in
  let eps := 1 # 1000000000000 in
  Binary64.near (Binary64.effort_multiplier64 d) 0.95 eps = true /\
  Binary64.near (Binary64.confidence_factor64 d) 1.065 eps = true /\
  Binary64.near (Binary64.labor_hours64 d) 0.532 eps = true /\
  Binary64.near (Binary64.material_units64 d) 0.5875 eps = true /\
  Binary64.near (Binary64.labor_cost64 d) 37.24 eps = true /\
  Binary64.near (Binary64.material_cost64 d) 29.375 eps = true /\
  Binary64.near (Binary64.overhead_cost64 d) 9.99225 eps = true /\
  Binary64.near (Binary64.raw_total64 d) 81.58672125 eps = true /\
  Binary64.total_cost64 d = Ok 80%Z.
Proof. cbv zeta. repeat split; vm_compute; reflexivity. Qed.

(** * More properties *)

(** ** Severity classifier *)

Lemma image_area_ge_1 (img_width img_height : Q) :
  1 <= Qmax 1 (img_width * img_height).
Proof. apply Q.le_max_l. Qed.

Lemma Qdiv_lt_iff (x c A : Q) : 0 < A -> (x / A < c / A <-> x < c).
Proof.
  intros HA. split; intros H.
  - apply Qnot_le_lt. intros Hle. apply (Qlt_not_le _ _ H).
    unfold Qdiv. apply Qmult_le_compat_r; [exact Hle|].
    apply Qlt_le_weak, Qinv_lt_0_compat, HA.
  - unfold Qdiv. apply Qmult_lt_compat_r; [apply Qinv_lt_0_compat, HA|exact H].
Qed.

Lemma Qdiv_le_mono (x y A : Q) : 0 < A -> x <= y -> x / A <= y / A.
Proof.
  intros HA H. unfold Qdiv. apply Qmult_le_compat_r; [exact H|].
  apply Qlt_le_weak, Qinv_lt_0_compat, HA.
Qed.

Lemma damage_area_nonneg (width height : Q) : 0 <= Qmax 0 width * Qmax 0 height.
Proof.
  apply Qmult_le_0_compat; apply Q.le_max_l.
Qed.

(** The decision in closed form: the thresholds [max(0.04, 2500/A)] and
    [max(0.12, 8000/A)] on the ratio are pixel floors of 2500 and 8000 on
    the area together with ratio floors of 0.04 and 0.12. *)
Lemma severity_decision_cases (damage_area image_area : Q) :
  1 <= image_area ->
  let ratio := damage_area / image_area in
  let severity := severity_decision damage_area ratio image_area in
  (severity = "high"%string /\ 8000 <= damage_area /\ 0.12 <= ratio) \/
  (severity = "medium"%string /\ 2500 <= damage_area /\ 0.04 <= ratio /\
   (damage_area < 8000 \/ ratio < 0.12)) \/
  (severity = "low"%string /\ (damage_area < 2500 \/ ratio < 0.04)).
Proof.
  intros HA ratio severity. subst severity. unfold severity_decision.
  assert (HA0 : 0 < image_area) by lra.
  assert (Hlow : forall c, ratio < c / image_area <-> damage_area < c).
  { intros c. apply Qdiv_lt_iff, HA0. }
  destruct (Qlt_le_dec damage_area 1500) as [H1|H1].
  { right. right. split; [reflexivity|]. left. lra. }
  destruct (Qlt_le_dec ratio (Qmax 0.04 (2500 / image_area))) as [H2|H2].
  { right. right. split; [reflexivity|].
    apply Q.max_lt_iff in H2 as [H2|H2]; [right; exact H2|left; now apply Hlow]. }
  assert (H2a : 0.04 <= ratio).
  { eapply Qle_trans; [apply (Q.le_max_l 0.04 (2500 / image_area))|exact H2]. }
  assert (H2b : 2500 <= damage_area).
  { apply Qnot_lt_le. intros Hc. apply Hlow in Hc.
    pose proof (Q.le_max_r 0.04 (2500 / image_area)). lra. }
  destruct (Qlt_le_dec ratio (Qmax 0.12 (8000 / image_area))) as [H3|H3].
  { right. left. split; [reflexivity|]. split; [exact H2b|]. split; [exact H2a|].
    apply Q.max_lt_iff in H3 as [H3|H3]; [right; exact H3|left; now apply Hlow]. }
  left. split; [reflexivity|]. split.
  - apply Qnot_lt_le. intros Hc. apply Hlow in Hc.
    pose proof (Q.le_max_r 0.12 (8000 / image_area)). lra.
  - eapply Qle_trans; [apply (Q.le_max_l 0.12 (8000 / image_area))|exact H3].
Qed.

(** X1. The classifier always answers low, medium or high, with a ratio
    that is not negative, and at most 1 when the box fits in the image. *)
Theorem severity_label_and_ratio_range (width height img_width img_height : Q) :
  exists (severity : string) (ratio : Q),
    get_damage_severity width height img_width img_height
    = Ok (severity, ratio) /\
    (severity = "low"%string \/ severity = "medium"%string \/
     severity = "high"%string) /\
    0 <= ratio /\
    (width <= img_width -> height <= img_height -> ratio <= 1).
Proof.
  rewrite get_damage_severity_refines. unfold severity_spec.
  eexists _, _. split; [reflexivity|].
  pose proof (image_area_ge_1 img_width img_height) as HA.
  pose proof (damage_area_nonneg width height) as HD.
  split.
  { destruct (severity_decision_cases (Qmax 0 width * Qmax 0 height) _ HA)
      as [(-> & _)|[(-> & _)|(-> & _)]]; auto. }
  split.
  { apply Qle_shift_div_l; lra. }
  intros Hw Hh. apply Qle_shift_div_r; [lra|]. rewrite Qmult_1_l.
  rewrite <- !max_Qmax.
  destruct (max_cases 0 width) as [[-> H1]|[-> H1]];
    destruct (max_cases 0 height) as [[-> H2]|[-> H2]];
    destruct (max_cases 1 (img_width * img_height)) as [[-> H3]|[-> H3]];
    try lra; nra.
Qed.

(** X2. The classification in closed form: high exactly when the box has
    at least 8000 pixels and a ratio of at least 0.12; low exactly when it
    has fewer than 2500 pixels or a ratio below 0.04; medium otherwise.  So
    every box of fewer than 2500 pixels is low on every image, and the
    earlier test against 1500 pixels never changes the answer. *)
Theorem severity_closed_form (width height img_width img_height : Q) :
  exists (severity : string) (ratio : Q),
    get_damage_severity width height img_width img_height
    = Ok (severity, ratio) /\
    (severity = "high"%string <->
     8000 <= Qmax 0 width * Qmax 0 height /\ 0.12 <= ratio) /\
    (severity = "low"%string <->
     Qmax 0 width * Qmax 0 height < 2500 \/ ratio < 0.04) /\
    (severity = "medium"%string <->
     (2500 <= Qmax 0 width * Qmax 0 height /\ 0.04 <= ratio) /\
     (Qmax 0 width * Qmax 0 height < 8000 \/ ratio < 0.12)).
Proof.
  rewrite get_damage_severity_refines. unfold severity_spec.
  eexists _, _. split; [reflexivity|].
  pose proof (image_area_ge_1 img_width img_height) as HA.
  destruct (severity_decision_cases (Qmax 0 width * Qmax 0 height) _ HA)
    as [(-> & H1 & H2)|[(-> & H1 & H2 & H3)|(-> & H1)]].
  - repeat split; try discriminate; try tauto; intros; lra.
  - repeat split; try discriminate; try tauto; intros; lra.
  - repeat split; try discriminate; try tauto; intros; lra.
Qed.

Lemma damage_area_mono (w h w' h' : Q) :
  w <= w' -> h <= h' -> Qmax 0 w * Qmax 0 h <= Qmax 0 w' * Qmax 0 h'.
Proof.
  intros Hw Hh.
  pose proof (Q.le_max_l 0 w). pose proof (Q.le_max_l 0 h).
  pose proof (Q.max_le_compat_l w w' 0 Hw).
  pose proof (Q.max_le_compat_l h h' 0 Hh).
  eapply Qle_trans; [apply Qmult_le_compat_r; eassumption|].
  rewrite !(Qmult_comm (Qmax 0 w')).
  apply Qmult_le_compat_r; [assumption|lra].
Qed.

(** X3. On one image a box that is at least as wide and as high as another
    never gets a lower severity, nor a smaller ratio. *)
Theorem severity_monotone_in_box
    (width height width' height' img_width img_height : Q) :
  width <= width' ->
  height <= height' ->
  exists (s s' : string) (r r' : Q),
    get_damage_severity width height img_width img_height = Ok (s, r) /\
    get_damage_severity width' height' img_width img_height = Ok (s', r') /\
    (severity_rank s <= severity_rank s')%nat /\
    r <= r'.
Proof.
  intros Hw Hh. rewrite !get_damage_severity_refines. unfold severity_spec.
  eexists _, _, _, _. split; [reflexivity|]. split; [reflexivity|].
  pose proof (image_area_ge_1 img_width img_height) as HA.
  pose proof (damage_area_mono _ _ _ _ Hw Hh) as Harea.
  assert (Hr : Qmax 0 width * Qmax 0 height / Qmax 1 (img_width * img_height)
               <= Qmax 0 width' * Qmax 0 height' / Qmax 1 (img_width * img_height)).
  { apply Qdiv_le_mono; [lra|exact Harea]. }
  split; [|exact Hr].
  destruct (severity_decision_cases (Qmax 0 width * Qmax 0 height) _ HA)
    as [(-> & H1 & H2)|[(-> & H1 & H2 & H3)|(-> & H1)]];
    destruct (severity_decision_cases (Qmax 0 width' * Qmax 0 height') _ HA)
    as [(-> & H1' & H2')|[(-> & H1' & H2' & H3')|(-> & H1')]];
    cbn; try lia; exfalso; lra.
Qed.

Lemma severity_monotone_in_box_witness :
  exists (s s' : string) (r r' : Q),
    get_damage_severity 50 50 1000 1000 = Ok (s, r) /\
    get_damage_severity 200 400 1000 1000 = Ok (s', r') /\
    (severity_rank s <= severity_rank s')%nat /\
    r <= r'.
Proof.
  apply (severity_monotone_in_box 50 50 200 400 1000 1000); lra.
Defined.

(** ** Repair cost: bounds, monotonicity, saturation *)

Lemma round_int_comp (x y : Q) : x == y -> Py.round_int x = Py.round_int y.
Proof.
  intros E. unfold Py.round_int.
  rewrite (Qfloor_comp x y E).
  assert (E' : x - inject_Z (Qfloor y) == y - inject_Z (Qfloor y)) by (rewrite E; reflexivity).
  now rewrite (Qcompare_comp _ _ E' (1 # 2) (1 # 2) (Qeq_refl _)).
Qed.

Lemma round_int_mono (x y : Q) : x <= y -> (Py.round_int x <= Py.round_int y)%Z.
Proof.
  intros H. destruct (Qlt_le_dec x y) as [Hlt|Hge].
  - destruct (Z_le_gt_dec (Py.round_int x) (Py.round_int y)) as [Hle|Hgt];
      [exact Hle|exfalso].
    assert (Hz : (Py.round_int y + 1 <= Py.round_int x)%Z) by lia.
    rewrite Zle_Qle, inject_Z_plus in Hz. change (inject_Z 1) with 1 in Hz.
    pose proof (round_int_near x) as [Hx _].
    pose proof (round_int_near y) as [_ Hy]. lra.
  - rewrite (round_int_comp x y); [lia|]. apply Qle_antisym; assumption.
Qed.

Lemma TYPE_COMPLEXITY_bounds (key : string) (profile : Profile) :
  TYPE_COMPLEXITY !! key = Some profile ->
  0.8 <= base_hours profile <= 2.2 /\ 0.5 <= material_factor profile <= 1.6.
Proof.
  intros H. apply elem_of_list_to_map_2 in H.
  repeat (apply elem_of_cons in H as [H|H];
          [inversion H; subst; cbn; repeat split; discriminate|]).
  now apply elem_of_nil in H.
Qed.

Lemma SEVERITY_LOAD_bounds (key : string) (load : Q) :
  SEVERITY_LOAD !! key = Some load -> 0.7 <= load <= 1.5.
Proof.
  intros H. apply elem_of_list_to_map_2 in H.
  repeat (apply elem_of_cons in H as [H|H];
          [inversion H; subst; split; discriminate|]).
  now apply elem_of_nil in H.
Qed.

Lemma profile_bounds (damage_type : string) :
  let profile := Py.get TYPE_COMPLEXITY (Py.lower damage_type) default_profile in
  0.8 <= base_hours profile <= 2.2 /\ 0.5 <= material_factor profile <= 1.6.
Proof.
  unfold Py.get.
  destruct (TYPE_COMPLEXITY !! Py.lower damage_type) as [p|] eqn:E.
  - exact (TYPE_COMPLEXITY_bounds _ _ E).
  - repeat split; discriminate.
Qed.

Lemma severity_factor_bounds (severity : string) :
  0.7 <= Py.get SEVERITY_LOAD severity 0.85 <= 1.5.
Proof.
  unfold Py.get. destruct (SEVERITY_LOAD !! severity) as [l|] eqn:E.
  - exact (SEVERITY_LOAD_bounds _ _ E).
  - split; discriminate.
Qed.

Lemma Qmult_between (a b c d x y : Q) :
  0 <= a -> 0 <= c -> a <= x <= b -> c <= y <= d ->
  a * c <= x * y <= b * d.
Proof.
  intros Ha Hc [Hax Hxb] [Hcy Hyd]. split.
  - eapply Qle_trans; [apply (Qmult_le_compat_r a x c Hax Hc)|].
    rewrite !(Qmult_comm x). apply Qmult_le_compat_r; lra.
  - eapply Qle_trans; [apply (Qmult_le_compat_r x b y Hxb); lra|].
    rewrite !(Qmult_comm b). apply Qmult_le_compat_r; lra.
Qed.

Lemma get_repair_cost_locals (LABOR_RATE MATERIAL_RATE : Q)
    (damage_type severity : string) (area_ratio confidence : Q) :
  get_repair_cost LABOR_RATE MATERIAL_RATE damage_type severity
    area_ratio confidence
  = Ok (total_cost
          (estimate_locals LABOR_RATE MATERIAL_RATE
             (Py.get TYPE_COMPLEXITY (Py.lower damage_type) default_profile)
             (Py.get SEVERITY_LOAD severity 0.85) area_ratio confidence)).
Proof. reflexivity. Qed.

(** X4. At the default rates 70 and 50 every estimate, whatever the type,
    the severity label, the area ratio and the confidence, costs between
    30 and 930. *)
Theorem repair_cost_bounds (damage_type severity : string)
    (area_ratio confidence : Q) :
  exists cost : Z,
    get_repair_cost default_LABOR_RATE default_MATERIAL_RATE
      damage_type severity area_ratio confidence = Ok cost /\
    (30 <= cost <= 930)%Z.
Proof.
  rewrite get_repair_cost_locals. eexists. split; [reflexivity|].
  pose proof (profile_bounds damage_type) as [Hb Hm]. cbv zeta in Hb, Hm.
  pose proof (severity_factor_bounds severity) as Hs.
  cbn [total_cost estimate_locals].
  pose proof (clamp_between 0.6 2.5 (0.9 + area_ratio * 5) ltac:(lra)) as He.
  pose proof (clamp_between 0.55 1.1 (0.75 + confidence * 0.35) ltac:(lra)) as Hc.
  set (em := Py.max 0.6 _) in *. set (cf := Py.max 0.55 _) in *.
  set (bh := base_hours _) in *. set (mf := material_factor _) in *.
  set (sf := Py.get SEVERITY_LOAD severity 0.85) in *.
  clearbody em cf bh mf sf.
  pose proof (Qmult_between 0.8 2.2 0.7 1.5 bh sf ltac:(lra) ltac:(lra) Hb Hs) as H1.
  pose proof (Qmult_between (0.8 * 0.7) (2.2 * 1.5) 0.6 2.5 (bh * sf) em
                ltac:(lra) ltac:(lra) H1 He) as H2.
  assert (H3 : 1.0 <= 0.7 + em * 0.5 <= 1.95) by lra.
  pose proof (Qmult_between 0.5 1.6 1.0 1.95 mf (0.7 + em * 0.5)
                ltac:(lra) ltac:(lra) Hm H3) as H4.
  unfold default_LABOR_RATE, default_MATERIAL_RATE.
  set (lh := bh * sf * em) in *. set (mu := mf * (0.7 + em * 0.5)) in *.
  clearbody lh mu.
  assert (H5 : 55.798 <= 70 * lh + 50 * mu + 0.15 * (70 * lh + 50 * mu) <= 843.525) by lra.
  pose proof (Qmult_between 55.798 843.525 0.55 1.1
                (70 * lh + 50 * mu + 0.15 * (70 * lh + 50 * mu)) cf
                ltac:(lra) ltac:(lra) H5 Hc) as H6.
  set (raw := (70 * lh + 50 * mu + 0.15 * (70 * lh + 50 * mu)) * cf) in *.
  clearbody raw.
  assert (Hlo : (3 <= Py.round_int (raw / 10))%Z).
  { apply round_int_ge. apply Qle_shift_div_l; [lra|]. change (inject_Z 3) with 3. lra. }
  assert (Hhi : (Py.round_int (raw / 10) <= 93)%Z).
  { apply round_int_le. apply Qle_shift_div_r; [lra|]. change (inject_Z 93) with 93. lra. }
  lia.
Qed.

Lemma clamp_mono (lo hi x y : Q) :
  x <= y -> Py.max lo (Py.min hi x) <= Py.max lo (Py.min hi y).
Proof.
  intros H.
  destruct (max_cases lo (Py.min hi x)) as [[-> H1]|[-> H1]];
    destruct (max_cases lo (Py.min hi y)) as [[-> H2]|[-> H2]];
    destruct (min_cases hi x) as [[Ex H3]|[Ex H3]];
    destruct (min_cases hi y) as [[Ey H4]|[Ey H4]];
    rewrite ?Ex, ?Ey in *; lra.
Qed.

Lemma Qmult_le_mono_nonneg (x x' y y' : Q) :
  0 <= x -> 0 <= y -> x <= x' -> y <= y' -> x * y <= x' * y'.
Proof.
  intros Hx Hy Hxx Hyy.
  exact (proj1 (Qmult_between x x' y y' x' y' Hx Hy
                  (conj Hxx (Qle_refl _)) (conj Hyy (Qle_refl _)))).
Qed.

(** X5. At non-negative rates the cost never decreases when the damage
    covers more of the image or when the detector is more confident. *)
Theorem repair_cost_monotone (LABOR_RATE MATERIAL_RATE : Q)
    (damage_type severity : string) (area_ratio area_ratio' : Q)
    (confidence confidence' : Q) :
  0 <= LABOR_RATE ->
  0 <= MATERIAL_RATE ->
  area_ratio <= area_ratio' ->
  confidence <= confidence' ->
  exists cost cost' : Z,
    get_repair_cost LABOR_RATE MATERIAL_RATE damage_type severity
      area_ratio confidence = Ok cost /\
    get_repair_cost LABOR_RATE MATERIAL_RATE damage_type severity
      area_ratio' confidence' = Ok cost' /\
    (cost <= cost')%Z.
Proof.
  intros HL HM Ha Hc. rewrite !get_repair_cost_locals.
  eexists _, _. split; [reflexivity|]. split; [reflexivity|].
  pose proof (profile_bounds damage_type) as [Hb Hm]. cbv zeta in Hb, Hm.
  pose proof (severity_factor_bounds severity) as Hs.
  cbn [total_cost estimate_locals].
  pose proof (clamp_between 0.6 2.5 (0.9 + area_ratio * 5) ltac:(lra)) as He.
  pose proof (clamp_between 0.55 1.1 (0.75 + confidence * 0.35) ltac:(lra)) as Hf.
  pose proof (clamp_mono 0.6 2.5 (0.9 + area_ratio * 5) (0.9 + area_ratio' * 5)
                ltac:(lra)) as Hem.
  pose proof (clamp_mono 0.55 1.1 (0.75 + confidence * 0.35)
                (0.75 + confidence' * 0.35) ltac:(lra)) as Hcf.
  set (em := Py.max 0.6 (Py.min 2.5 (0.9 + area_ratio * 5))) in *.
  set (em' := Py.max 0.6 (Py.min 2.5 (0.9 + area_ratio' * 5))) in *.
  set (cf := Py.max 0.55 (Py.min 1.1 (0.75 + confidence * 0.35))) in *.
  set (cf' := Py.max 0.55 (Py.min 1.1 (0.75 + confidence' * 0.35))) in *.
  set (bh := base_hours _) in *. set (mf := material_factor _) in *.
  set (sf := Py.get SEVERITY_LOAD severity 0.85) in *.
  clearbody em em' cf cf' bh mf sf.
  assert (Hbs : 0 <= bh * sf) by (apply Qmult_le_0_compat; lra).
  assert (Hlh : bh * sf * em <= bh * sf * em').
  { apply Qmult_le_mono_nonneg; lra. }
  assert (Hlh0 : 0 <= bh * sf * em) by (apply Qmult_le_0_compat; lra).
  assert (Hmu : mf * (0.7 + em * 0.5) <= mf * (0.7 + em' * 0.5)).
  { apply Qmult_le_mono_nonneg; lra. }
  assert (Hmu0 : 0 <= mf * (0.7 + em * 0.5)) by (apply Qmult_le_0_compat; lra).
  assert (Hlc : LABOR_RATE * (bh * sf * em) <= LABOR_RATE * (bh * sf * em')).
  { apply Qmult_le_mono_nonneg; lra. }
  assert (Hlc0 : 0 <= LABOR_RATE * (bh * sf * em)) by (apply Qmult_le_0_compat; lra).
  assert (Hmc : MATERIAL_RATE * (mf * (0.7 + em * 0.5))
                <= MATERIAL_RATE * (mf * (0.7 + em' * 0.5))).
  { apply Qmult_le_mono_nonneg; lra. }
  assert (Hmc0 : 0 <= MATERIAL_RATE * (mf * (0.7 + em * 0.5)))
    by (apply Qmult_le_0_compat; lra).
  set (lc := LABOR_RATE * (bh * sf * em)) in *.
  set (lc' := LABOR_RATE * (bh * sf * em')) in *.
  set (mc := MATERIAL_RATE * (mf * (0.7 + em * 0.5))) in *.
  set (mc' := MATERIAL_RATE * (mf * (0.7 + em' * 0.5))) in *.
  clearbody lc lc' mc mc'.
  assert (Hraw : (lc + mc + 0.15 * (lc + mc)) * cf
                 <= (lc' + mc' + 0.15 * (lc' + mc')) * cf').
  { apply Qmult_le_mono_nonneg; lra. }
  apply Z.mul_le_mono_nonneg_r; [lia|].
  apply round_int_mono. apply Qdiv_le_mono; [lra|exact Hraw].
Qed.

Lemma repair_cost_monotone_witness :
  exists cost cost' : Z,
    get_repair_cost 70 50 "dent" "medium" 0.05 0.6 = Ok cost /\
    get_repair_cost 70 50 "dent" "medium" 0.2 0.9 = Ok cost' /\
    (cost <= cost')%Z.
Proof.
  apply (repair_cost_monotone 70 50 "dent" "medium" 0.05 0.2 0.6 0.9); lra.
Defined.

Lemma effort_multiplier_saturates (x : Q) :
  2.5 <= x -> Py.max 0.6 (Py.min 2.5 x) = 2.5.
Proof.
  intros H. unfold Py.min.
  assert (E : Py.ltb x 2.5 = false) by now apply ltb_ge.
  rewrite E. reflexivity.
Qed.

Lemma confidence_factor_saturates (x : Q) :
  1.1 <= x -> Py.max 0.55 (Py.min 1.1 x) = 1.1.
Proof.
  intros H. unfold Py.min.
  assert (E : Py.ltb x 1.1 = false) by now apply ltb_ge.
  rewrite E. reflexivity.
Qed.

(** X6. The cost saturates: beyond an area ratio of 0.32 the effort
    multiplier stays at 2.5, and beyond a confidence of 1 the confidence
    factor stays at 1.1, so the cost is the cost at 0.32 and at 1. *)
Theorem repair_cost_saturates (LABOR_RATE MATERIAL_RATE : Q)
    (damage_type severity : string) (area_ratio confidence : Q) :
  (0.32 <= area_ratio ->
   get_repair_cost LABOR_RATE MATERIAL_RATE damage_type severity
     area_ratio confidence
   = get_repair_cost LABOR_RATE MATERIAL_RATE damage_type severity
       0.32 confidence) /\
  (1 <= confidence ->
   get_repair_cost LABOR_RATE MATERIAL_RATE damage_type severity
     area_ratio confidence
   = get_repair_cost LABOR_RATE MATERIAL_RATE damage_type severity
       area_ratio 1).
Proof.
  rewrite !get_repair_cost_locals. unfold estimate_locals. cbn [total_cost].
  split; intros H.
  - rewrite !(effort_multiplier_saturates (0.9 + area_ratio * 5)) by lra.
    rewrite !(effort_multiplier_saturates (0.9 + 0.32 * 5)) by lra.
    reflexivity.
  - rewrite !(confidence_factor_saturates (0.75 + confidence * 0.35)) by lra.
    rewrite !(confidence_factor_saturates (0.75 + 1 * 0.35)) by lra.
    reflexivity.
Qed.

(** ** IoU: range and zero *)

Lemma max_0_nonneg (x : Q) : 0 <= Py.max 0 x.
Proof. destruct (max_cases 0 x) as [[-> H]|[-> H]]; lra. Qed.

Lemma max_0_mono (x y : Q) : x <= y -> Py.max 0 x <= Py.max 0 y.
Proof.
  intros H. destruct (max_cases 0 x) as [[-> H1]|[-> H1]];
    destruct (max_cases 0 y) as [[-> H2]|[-> H2]]; lra.
Qed.

Lemma min_le_l (a b : Q) : Py.min a b <= a.
Proof. destruct (min_cases a b) as [[-> H]|[-> H]]; lra. Qed.

Lemma max_ge_l (a b : Q) : a <= Py.max a b.
Proof. destruct (max_cases a b) as [[-> H]|[-> H]]; lra. Qed.

Lemma intersection_area_nonneg (box_a box_b : Box) :
  0 <= intersection_area box_a box_b.
Proof.
  destruct box_a as [[[ax1 ay1] ax2] ay2], box_b as [[[bx1 by1] bx2] by2].
  cbn [intersection_area]. apply Qmult_le_0_compat; apply max_0_nonneg.
Qed.

Lemma box_area_nonneg (box : Box) : 0 <= box_area box.
Proof.
  destruct box as [[[x1 y1] x2] y2]. cbn [box_area].
  apply Qmult_le_0_compat; apply max_0_nonneg.
Qed.

Lemma intersection_area_le_l (box_a box_b : Box) :
  intersection_area box_a box_b <= box_area box_a.
Proof.
  destruct box_a as [[[ax1 ay1] ax2] ay2], box_b as [[[bx1 by1] bx2] by2].
  cbn [intersection_area box_area].
  apply Qmult_le_mono_nonneg; try apply max_0_nonneg; apply max_0_mono.
  - pose proof (min_le_l ax2 bx2). pose proof (max_ge_l ax1 bx1). lra.
  - pose proof (min_le_l ay2 by2). pose proof (max_ge_l ay1 by1). lra.
Qed.

Lemma intersection_area_le_r (box_a box_b : Box) :
  intersection_area box_a box_b <= box_area box_b.
Proof.
  rewrite intersection_area_comm. apply intersection_area_le_l.
Qed.

Lemma _iou_range (box_a box_b : Box) : 0 <= _iou box_a box_b <= 1.
Proof.
  rewrite _iou_unfold.
  pose proof (intersection_area_nonneg box_a box_b) as H0.
  pose proof (intersection_area_le_l box_a box_b) as Hl.
  pose proof (intersection_area_le_r box_a box_b) as Hr.
  destruct (Py.ltb 0 (iou_denominator box_a box_b)) eqn:E; [|lra].
  apply ltb_lt in E. split.
  - apply Qle_shift_div_l; lra.
  - apply Qle_shift_div_r; [exact E|]. unfold iou_denominator in *. lra.
Qed.

Lemma _iou_zero_iff (box_a box_b : Box) :
  _iou box_a box_b == 0 <-> intersection_area box_a box_b == 0.
Proof.
  rewrite _iou_unfold.
  pose proof (intersection_area_nonneg box_a box_b) as H0.
  pose proof (intersection_area_le_l box_a box_b) as Hl.
  pose proof (intersection_area_le_r box_a box_b) as Hr.
  destruct (Py.ltb 0 (iou_denominator box_a box_b)) eqn:E.
  - apply ltb_lt in E. split; intros H.
    + assert (E2 : intersection_area box_a box_b
                   == intersection_area box_a box_b / iou_denominator box_a box_b
                      * iou_denominator box_a box_b) by (field; lra).
      rewrite E2, H. ring.
    + rewrite H. unfold Qdiv. ring.
  - apply ltb_ge in E. unfold iou_denominator in E. split; intros _; lra.
Qed.

(** X7. The IoU of any two boxes, degenerate or inverted ones included,
    lies between 0 and 1. *)
Theorem iou_between_0_and_1 (box_a box_b : Box) :
  0 <= _iou box_a box_b <= 1.
Proof. apply _iou_range. Qed.

(** X8. The IoU of two boxes is 0 exactly when they do not overlap on a
    rectangle of positive width and height, that is unless
    max(ax1, bx1) < min(ax2, bx2) and max(ay1, by1) < min(ay2, by2); a box
    that only touches another, or has no area, has IoU 0 with it. *)
Theorem iou_zero_iff_no_overlap (ax1 ay1 ax2 ay2 bx1 by1 bx2 by2 : Q) :
  _iou (ax1, ay1, ax2, ay2) (bx1, by1, bx2, by2) == 0 <->
  ~ (Qmax ax1 bx1 < Qmin ax2 bx2 /\ Qmax ay1 by1 < Qmin ay2 by2).
Proof.
  rewrite _iou_zero_iff. cbn [intersection_area].
  rewrite <- !max_Qmax, <- !min_Qmin.
  set (dx := Py.min ax2 bx2 - Py.max ax1 bx1).
  set (dy := Py.min ay2 by2 - Py.max ay1 by1).
  assert (Hx : Py.max ax1 bx1 < Py.min ax2 bx2 <-> 0 < dx) by (unfold dx; lra).
  assert (Hy : Py.max ay1 by1 < Py.min ay2 by2 <-> 0 < dy) by (unfold dy; lra).
  rewrite Hx, Hy. clearbody dx dy. clear Hx Hy.
  destruct (max_cases 0 dx) as [[-> H1]|[-> H1]];
    destruct (max_cases 0 dy) as [[-> H2]|[-> H2]].
  - split; [intros _ [H _]; lra|intros _; ring].
  - split; [intros _ [H _]; lra|intros _; ring].
  - split; [intros _ [_ H]; lra|intros _; ring].
  - split.
    + intros E _. pose proof (Qmult_lt_0_compat dx dy H1 H2). lra.
    + intros H. exfalso. apply H. split; assumption.
Qed.

(** ** Matcher: composition and edge thresholds *)

Lemma is_new_app (p p' : list Detection) (t : Q) (ret_det : Detection) :
  is_new (p ++ p') t ret_det = is_new p t ret_det && is_new p' t ret_det.
Proof. unfold is_new. apply forallb_app. Qed.

Lemma is_new_permutation (p p' : list Detection) (t : Q) (ret_det : Detection) :
  Permutation p p' -> is_new p t ret_det = is_new p' t ret_det.
Proof.
  intros HP.
  destruct (is_new p t ret_det) eqn:E1, (is_new p' t ret_det) eqn:E2;
    try reflexivity; exfalso.
  - apply is_new_iff in E1. apply not_true_iff_false in E2. apply E2.
    apply is_new_iff. intros (pd & Hin & Ho). apply E1. exists pd.
    split; [|exact Ho]. eapply Permutation_in; [symmetry; exact HP|exact Hin].
  - apply is_new_iff in E2. apply not_true_iff_false in E1. apply E1.
    apply is_new_iff. intros (pd & Hin & Ho). apply E2. exists pd.
    split; [|exact Ho]. eapply Permutation_in; [exact HP|exact Hin].
Qed.

(** X9. Each return record is judged on its own: the result over a
    concatenation of return lists is the concatenation of the results, and
    running the matcher on its own result changes nothing. *)
Theorem find_new_damages_compositional
    (pickup r1 r2 : list Detection) (iou_threshold : Q) :
  find_new_damages pickup (r1 ++ r2) iou_threshold
  = find_new_damages pickup r1 iou_threshold
    ++ find_new_damages pickup r2 iou_threshold /\
  find_new_damages pickup (find_new_damages pickup r1 iou_threshold)
    iou_threshold
  = find_new_damages pickup r1 iou_threshold.
Proof.
  rewrite !find_new_damages_is_filter. split.
  - apply List.filter_app.
  - induction r1 as [|rd rest IH]; [reflexivity|].
    cbn [List.filter].
    destruct (is_new pickup iou_threshold rd) eqn:E; [|exact IH].
    cbn [List.filter]. rewrite E. now f_equal.
Qed.

(** X10. The pickup list counts as a set of evidence: reordering it does
    not change the result, and adding pickup records can only remove
    records from the result. *)
Theorem find_new_damages_pickup_evidence
    (pickup pickup' ret : list Detection) (iou_threshold : Q) :
  (Permutation pickup pickup' ->
   find_new_damages pickup ret iou_threshold
   = find_new_damages pickup' ret iou_threshold) /\
  sublist (find_new_damages (pickup ++ pickup') ret iou_threshold)
          (find_new_damages pickup ret iou_threshold).
Proof.
  rewrite !find_new_damages_is_filter. split.
  - intros HP. apply List.filter_ext. intros rd. now apply is_new_permutation.
  - apply filter_sublist_mono. intros rd. rewrite is_new_app.
    now intros [H _]%andb_true_iff.
Qed.

Lemma filter_all {A} (keep : A -> bool) (l : list A) :
  (forall x, In x l -> keep x = true) -> List.filter keep l = l.
Proof.
  induction l as [|x l IH]; intros H; [reflexivity|].
  cbn [List.filter]. rewrite (H x (or_introl eq_refl)). f_equal.
  apply IH. intros y Hy. apply H. now right.
Qed.

Lemma class_seen_iff (pickup : list Detection) (ret_det : Detection) :
  class_seen pickup ret_det = true <->
  exists pd, In pd pickup /\ det_class pd = det_class ret_det.
Proof.
  unfold class_seen. rewrite existsb_exists.
  split; intros (pd & Hin & H); exists pd; (split; [exact Hin|]);
    now apply String.eqb_eq.
Qed.

(** X11. Edge thresholds.  Above 1 nothing can match and every return
    record is reported.  At 0 or below every pickup record of the same
    class matches, so a return record is reported exactly when its class
    does not occur in the pickup list. *)
Theorem find_new_damages_edge_thresholds
    (pickup ret : list Detection) (iou_threshold : Q) :
  (1 < iou_threshold -> find_new_damages pickup ret iou_threshold = ret) /\
  (iou_threshold <= 0 ->
   find_new_damages pickup ret iou_threshold
   = List.filter (fun ret_det => negb (class_seen pickup ret_det)) ret).
Proof.
  rewrite !find_new_damages_is_filter. split; intros Ht.
  - apply filter_all. intros rd _. apply is_new_iff.
    intros (pd & _ & _ & Hiou).
    pose proof (_iou_range (_det_to_xyxy rd) (_det_to_xyxy pd)). lra.
  - apply List.filter_ext. intros rd.
    destruct (class_seen pickup rd) eqn:E; cbn [negb].
    + apply not_true_iff_false. rewrite is_new_iff. intros H. apply H.
      apply class_seen_iff in E as (pd & Hin & Hc). exists pd.
      split; [exact Hin|]. split; [exact Hc|].
      pose proof (_iou_range (_det_to_xyxy rd) (_det_to_xyxy pd)). lra.
    + apply is_new_iff. intros (pd & Hin & Hc & _).
      apply not_true_iff_false in E. apply E. apply class_seen_iff.
      now exists pd.
Qed.

Lemma box_area_of_record (det : Detection) :
  has_area det = false -> box_area (_det_to_xyxy det) == 0.
Proof.
  unfold has_area, _det_to_xyxy. cbn [box_area]. intros H.
  apply andb_false_iff in H as [H|H]; apply ltb_ge in H.
  - destruct (max_cases 0 (det_x det + det_width det - det_x det))
      as [[-> _]|[-> H1]]; [ring|lra].
  - destruct (max_cases 0 (det_y det + det_height det - det_y det))
      as [[-> _]|[-> H1]]; [ring|lra].
Qed.

(** X12. Matching a list of records against itself, with a threshold in
    (0, 1], reports exactly the records without area: a box of positive
    width and height matches itself with IoU 1, and a box whose width or
    height is 0 after rounding overlaps nothing, not even itself. *)
Theorem find_new_damages_self (records : list Detection) (iou_threshold : Q) :
  0 < iou_threshold ->
  iou_threshold <= 1 ->
  find_new_damages records records iou_threshold
  = List.filter (fun det => negb (has_area det)) records.
Proof.
  intros H0 H1. rewrite find_new_damages_is_filter.
  apply List.filter_ext_in. intros rd Hin.
  destruct (has_area rd) eqn:E; cbn [negb].
  - apply not_true_iff_false. rewrite is_new_iff. intros H. apply H.
    exists rd. split; [exact Hin|]. split; [reflexivity|].
    apply andb_true_iff in E as [Hw Hh].
    apply ltb_lt in Hw. apply ltb_lt in Hh.
    rewrite (_iou_self_record rd Hw Hh). exact H1.
  - apply is_new_iff. intros (pd & _ & _ & Hiou).
    assert (Hz : _iou (_det_to_xyxy rd) (_det_to_xyxy pd) == 0).
    { apply _iou_zero_iff.
      pose proof (intersection_area_nonneg (_det_to_xyxy rd) (_det_to_xyxy pd)).
      pose proof (intersection_area_le_l (_det_to_xyxy rd) (_det_to_xyxy pd)).
      pose proof (box_area_of_record rd E). lra. }
    lra.
Qed.

Lemma find_new_damages_self_witness :
  find_new_damages [pickup_scratch; return_dent] [pickup_scratch; return_dent] 0.3
  = List.filter (fun det => negb (has_area det)) [pickup_scratch; return_dent].
Proof.
  apply (find_new_damages_self [pickup_scratch; return_dent] 0.3); lra.
Defined.

(** ** Buckets *)

Lemma lookup_setdefault_append (m : gmap string (list Detection))
    (det : Detection) (c : string) :
  setdefault_append m det !! c
  = bucket_after (m !! c) (if same_class c det then [det] else []).
Proof.
  unfold setdefault_append, Py.get, same_class, bucket_after.
  destruct (String.eqb_spec (det_class det) c) as [->|Hne].
  - rewrite lookup_insert_eq. destruct (m !! _); reflexivity.
  - rewrite lookup_insert_ne by exact Hne.
    destruct (m !! c); [now rewrite app_nil_r|reflexivity].
Qed.

Lemma bucket_after_app (entry : option (list Detection)) (l1 l2 : list Detection) :
  bucket_after (bucket_after entry l1) l2 = bucket_after entry (l1 ++ l2).
Proof.
  destruct entry as [l0|]; cbn.
  - now rewrite app_assoc.
  - destruct l1; cbn; [reflexivity|]. reflexivity.
Qed.

Lemma lookup_foldl_setdefault_append (pickup : list Detection) (c : string) :
  forall m : gmap string (list Detection),
    foldl setdefault_append m pickup !! c
    = bucket_after (m !! c) (List.filter (same_class c) pickup).
Proof.
  induction pickup as [|det rest IH]; intros m; cbn [foldl List.filter].
  - destruct (m !! c); cbn; [now rewrite app_nil_r|reflexivity].
  - rewrite IH, lookup_setdefault_append, bucket_after_app.
    destruct (same_class c det); reflexivity.
Qed.

(** X13. The dict of buckets partitions the pickup records by class name:
    a class has a key exactly when some pickup record has it, and its
    bucket is then the non-empty list of those records in their original
    order. *)
Theorem bucket_by_class_partition (pickup : list Detection) (c : string) :
  (bucket_by_class pickup !! c = None <->
   forall det : Detection, In det pickup -> det_class det <> c) /\
  (forall bucket : list Detection,
      bucket_by_class pickup !! c = Some bucket ->
      bucket <> [] /\
      bucket = List.filter (fun det => String.eqb (det_class det) c) pickup).
Proof.
  unfold bucket_by_class. rewrite lookup_foldl_setdefault_append, lookup_empty.
  fold (same_class c). cbn [bucket_after]. split.
  - destruct (List.filter (same_class c) pickup) as [|d l] eqn:E.
    + split; [|reflexivity]. intros _ det Hin Hc.
      assert (Hd : In det (List.filter (same_class c) pickup)).
      { apply filter_In. split; [exact Hin|]. now apply String.eqb_eq. }
      rewrite E in Hd. destruct Hd.
    + split; [discriminate|]. intros H. exfalso.
      assert (Hd : In d (List.filter (same_class c) pickup)) by (rewrite E; now left).
      apply filter_In in Hd as [Hin Hc]. apply (H d Hin). now apply String.eqb_eq.
  - intros bucket. destruct (List.filter (same_class c) pickup) as [|d l] eqn:E;
      [discriminate|].
    intros [= <-]. split; [discriminate|reflexivity].
Qed.

(** ** Normalizer: records and failures *)

Section NormalizerFacts.

Variables LABOR_RATE MATERIAL_RATE : Q.
Variable imdecode : list Byte.byte -> option Image.
Variable get_model : Py.result Model.

Lemma normalize_detection_consistent (model : Model) (W H : Z)
    (raw : RawDetection) (det : Detection) :
  normalize_detection LABOR_RATE MATERIAL_RATE model W H raw = Ok det ->
  record_consistent det.
Proof.
  unfold normalize_detection. rewrite get_damage_severity_refines. run_bind.
  unfold estimate_repair_details.
  rewrite lookup_profile_Ok, lookup_severity_factor_Ok. run_bind.
  destruct (Py.div (x_min raw) (inject_Z W)) as [nx|]; [|discriminate].
  destruct (Py.div (y_min raw) (inject_Z H)) as [ny|]; [|discriminate].
  destruct (Py.div (x_max raw - x_min raw) (inject_Z W)) as [nw|]; [|discriminate].
  destruct (Py.div (y_max raw - y_min raw) (inject_Z H)) as [nh|]; [|discriminate].
  cbn [Py.bind]. intros [= <-]. unfold record_consistent.
  cbn [det_type det_class det_severity det_repair_cost det_repair_details
       det_area_ratio re_total_cost re_damage_type re_severity].
  pose proof (image_area_ge_1 (inject_Z W) (inject_Z H)) as HA.
  split; [reflexivity|]. split.
  { unfold severity_spec. cbn [fst].
    destruct (severity_decision_cases
                (Qmax 0 (x_max raw - x_min raw) * Qmax 0 (y_max raw - y_min raw))
                _ HA) as [(-> & _)|[(-> & _)|(-> & _)]]; auto. }
  split; [reflexivity|]. split.
  { cbn [total_cost estimate_locals]. apply Z.mod_mul. lia. }
  split; [reflexivity|]. split; [reflexivity|].
  unfold severity_spec. cbn [snd].
  assert (H0 : 0 <= Qmax 0 (x_max raw - x_min raw) * Qmax 0 (y_max raw - y_min raw)
                    / Qmax 1 (inject_Z W * inject_Z H)).
  { apply Qle_shift_div_l; [lra|]. pose proof (damage_area_nonneg
      (x_max raw - x_min raw) (y_max raw - y_min raw)). lra. }
  pose proof (round_int_ge 0 _ (Qmult_le_0_compat _ (inject_Z (10 ^ Z.of_nat 4)) H0
                                  ltac:(discriminate))) as Hr.
  unfold Py.round. apply Qle_shift_div_l; [reflexivity|].
  rewrite Qmult_0_l. change 0 with (inject_Z 0). now rewrite <- Zle_Qle.
Qed.

Lemma normalize_loop_consistent (model : Model) (W H : Z)
    (xyxy : list RawDetection) :
  forall detections out : list Detection,
    normalize_loop LABOR_RATE MATERIAL_RATE model W H xyxy detections = Ok out ->
    Forall record_consistent detections ->
    Forall record_consistent out.
Proof.
  induction xyxy as [|raw rest IH]; intros detections out; cbn [normalize_loop].
  - now intros [= <-].
  - destruct (normalize_detection LABOR_RATE MATERIAL_RATE model W H raw)
      as [d|e] eqn:E; run_bind; [|discriminate].
    intros Hloop Hacc. apply (IH _ _ Hloop).
    apply Forall_app. split; [exact Hacc|].
    constructor; [|constructor]. exact (normalize_detection_consistent _ _ _ _ _ E).
Qed.

End NormalizerFacts.

(** X14. Every record the normalizer returns is consistent: [type] repeats
    [class], the severity is one of the three labels, [repair_cost] is the
    total of the embedded estimate and a multiple of 10, the estimate
    echoes the class and the severity, and the area ratio is not
    negative. *)
Theorem analyze_image_bytes_records_consistent
    (LABOR_RATE MATERIAL_RATE : Q)
    (imdecode : list Byte.byte -> option Image) (get_model : Py.result Model)
    (image_bytes : list Byte.byte) :
  match snd (analyze_image_bytes LABOR_RATE MATERIAL_RATE imdecode get_model
               image_bytes) with
  | Ok detections => Forall record_consistent detections
  | Raise _ => True
  end.
Proof.
  unfold analyze_image_bytes.
  destruct (imdecode image_bytes) as [img|]; [|exact I].
  destruct get_model as [model|e]; [|exact I].
  destruct (predict model img) as [results|e]; [|exact I]. cbn [snd].
  destruct (normalize_loop _ _ _ _ _ _ _) as [out|e] eqn:E; [|exact I].
  apply (normalize_loop_consistent _ _ _ _ _ _ _ _ E). constructor.
Qed.






(** ** Pipeline *)




Lemma EvSimilarity_not_in_analyses (t1 t2 : list event) :
  ~ In EvSimilarity (map EvPickup t1 ++ map EvReturn t2).
Proof.
  intros H. apply in_app_or in H as [H|H];
    apply in_map_iff in H as (ev & Hev & _); discriminate.
Qed.

(** X17. The comparison fails exactly when the pickup analysis fails, or
    the return analysis fails after it, or the similarity was asked for
    and the scorer fails after both; the exception is passed on and no
    partial result is returned.  When the pickup analysis fails the return
    image is not touched, and the scorer is called only when both analyses
    returned and the similarity was asked for. *)
Theorem analyze_pickup_return_failures
    (LABOR_RATE MATERIAL_RATE : Q)
    (imdecode : list Byte.byte -> option Image) (get_model : Py.result Model)
    (compute_similarity_bytes : list Byte.byte -> list Byte.byte -> Py.result Q)
    (pickup_bytes return_bytes : list Byte.byte)
    (iou_threshold : Q) (compute_similarity : bool) :
  let analysis := analyze_image_bytes LABOR_RATE MATERIAL_RATE imdecode get_model in
  let run := analyze_pickup_return LABOR_RATE MATERIAL_RATE imdecode get_model
               compute_similarity_bytes pickup_bytes return_bytes
               iou_threshold compute_similarity in
  (forall e : Py.exn,
      snd run = Raise e <->
      snd (analysis pickup_bytes) = Raise e \/
      (exists pickup_dets : list Detection,
          snd (analysis pickup_bytes) = Ok pickup_dets /\
          (snd (analysis return_bytes) = Raise e \/
           exists return_dets : list Detection,
             snd (analysis return_bytes) = Ok return_dets /\
             compute_similarity = true /\
             compute_similarity_bytes pickup_bytes return_bytes = Raise e))) /\
  (forall e : Py.exn,
      snd (analysis pickup_bytes) = Raise e ->
      fst run = map EvPickup (fst (analysis pickup_bytes))) /\
  (In EvSimilarity (fst run) <->
   compute_similarity = true /\
   exists pickup_dets return_dets : list Detection,
     snd (analysis pickup_bytes) = Ok pickup_dets /\
     snd (analysis return_bytes) = Ok return_dets).
Proof.
  cbv zeta. unfold analyze_pickup_return. cbv zeta.
  destruct (snd (analyze_image_bytes _ _ _ _ pickup_bytes)) as [pd|e1].
  2:{ cbn [fst snd]. split; [|split].
      - intros e. split.
        + intros [= <-]. now left.
        + intros [[= <-]|(x & [=] & _)]. reflexivity.
      - reflexivity.
      - split.
        + intros H. apply in_map_iff in H as (ev & Hev & _). discriminate.
        + intros (_ & x & y & [=] & _). }
  destruct (snd (analyze_image_bytes _ _ _ _ return_bytes)) as [rd|e2].
  2:{ cbn [fst snd]. split; [|split].
      - intros e. split.
        + intros [= <-]. right. exists pd. split; [reflexivity|]. now left.
        + intros [[=]|(x & _ & [[= <-]|(y & [=] & _)])]. reflexivity.
      - discriminate.
      - split.
        + intros H. now apply EvSimilarity_not_in_analyses in H.
        + intros (_ & x & y & _ & [=]). }
  destruct compute_similarity.
  - destruct (compute_similarity_bytes pickup_bytes return_bytes) as [score|e3];
      cbn [fst snd]; (split; [|split]).
    + intros e. split; [discriminate|].
      intros [[=]|(x & _ & [[=]|(y & _ & _ & [=])])].
    + discriminate.
    + split; [|intros _; apply in_or_app; right; now left].
      intros _. split; [reflexivity|]. now exists pd, rd.
    + intros e. split.
      * intros [= <-]. right. exists pd. split; [reflexivity|]. right.
        exists rd. repeat split.
      * intros [[=]|(x & _ & [[=]|(y & _ & _ & [= <-])])]. reflexivity.
    + discriminate.
    + split; [|intros _; apply in_or_app; right; now left].
      intros _. split; [reflexivity|]. now exists pd, rd.
  - cbn [fst snd]. split; [|split].
    + intros e. split; [discriminate|].
      intros [[=]|(x & _ & [[=]|(y & _ & [=] & _)])].
    + discriminate.
    + split.
      * intros H. now apply EvSimilarity_not_in_analyses in H.
      * intros ([=] & _).
Qed.

(** ** [_json_safe] *)

(** Induction on a value, with the property available for every element
    of a dict, list or tuple. *)
Lemma pyvalue_induction (P : pyvalue -> Prop) :
  (forall s, P (Plain s)) ->
  (forall item, P (NpGeneric item)) ->
  (forall items, Forall (fun kv => P (snd kv)) items -> P (PyDict items)) ->
  (forall l, Forall P l -> P (PyList l)) ->
  (forall l, Forall P l -> P (PyTuple l)) ->
  (forall r, P (Other r)) ->
  forall value : pyvalue, P value.
Proof.
  intros HPlain HNp HDict HList HTuple HOther.
  fix IH 1. intros [s|item|items|l|l|r].
  - apply HPlain.
  - apply HNp.
  - apply HDict. induction items as [|kv rest IHrest]; constructor;
      [apply IH|exact IHrest].
  - apply HList. induction l as [|v rest IHrest]; constructor;
      [apply IH|exact IHrest].
  - apply HTuple. induction l as [|v rest IHrest]; constructor;
      [apply IH|exact IHrest].
  - apply HOther.
Qed.

Lemma forallb_map_clean (l : list pyvalue) :
  Forall (fun v => json_clean (_json_safe v) = true) l ->
  forallb json_clean (map _json_safe l) = true.
Proof.
  induction 1 as [|v l Hv _ IH]; [reflexivity|].
  cbn [map forallb]. now rewrite Hv, IH.
Qed.

Lemma _json_safe_clean (value : pyvalue) : json_clean (_json_safe value) = true.
Proof.
  induction value as [s|item|items IH|l IH|l IH|r] using pyvalue_induction;
    cbn [_json_safe json_clean]; try reflexivity.
  - induction IH as [|[k v] items Hv _ IHitems]; [reflexivity|].
    cbn [map forallb snd] in *. now rewrite Hv, IHitems.
  - now apply forallb_map_clean.
  - now apply forallb_map_clean.
Qed.

Lemma _json_safe_fixed_of_clean (value : pyvalue) :
  json_clean value = true -> _json_safe value = value.
Proof.
  induction value as [s|item|items IH|l IH|l IH|r] using pyvalue_induction;
    cbn [_json_safe json_clean]; try reflexivity; try discriminate.
  - intros H. f_equal.
    induction IH as [|[k v] items Hv _ IHitems]; [reflexivity|].
    cbn [map forallb snd] in *. apply andb_true_iff in H as [H1 H2].
    now rewrite (Hv H1), (IHitems H2).
  - intros H. f_equal.
    induction IH as [|v l Hv _ IHl]; [reflexivity|].
    cbn [map forallb] in *. apply andb_true_iff in H as [H1 H2].
    now rewrite (Hv H1), (IHl H2).
Qed.

(** X18. The result of [_json_safe] holds no numpy scalar and no tuple in
    a value position, at any depth, and a second pass changes nothing. *)
Theorem json_safe_clean_and_idempotent (value : pyvalue) :
  json_clean (_json_safe value) = true /\
  _json_safe (_json_safe value) = _json_safe value.
Proof.
  split; [apply _json_safe_clean|].
  apply _json_safe_fixed_of_clean, _json_safe_clean.
Qed.

(** X19. [_json_safe] returns a value unchanged exactly when it holds no
    numpy scalar and no tuple; and it never converts the keys of a dict:
    they come back as they were, in their order. *)
Theorem json_safe_fixed_points_and_keys (value : pyvalue) :
  (_json_safe value = value <-> json_clean value = true) /\
  dict_keys (_json_safe value) = dict_keys value.
Proof.
  split.
  - split; [|apply _json_safe_fixed_of_clean].
    intros E. rewrite <- E. apply _json_safe_clean.
  - destruct value as [s|item|items|l|l|r]; try reflexivity.
    cbn [_json_safe dict_keys]. rewrite map_map.
    apply map_ext. now intros [k v].
Qed.

(** A nested payload: the numpy float and the numpy key of the inner dict. *)
Example json_safe_nested :
  _json_safe
    (PyDict [ (KeyPlain (SStr "area_ratio"), NpGeneric (SFloat 0.04));
              (KeyNumpy (SInt 3), PyTuple [NpGeneric (SInt 1); Plain SNone]);
              (KeyPlain (SStr "mask"), Other "ndarray") ])
  = PyDict [ (KeyPlain (SStr "area_ratio"), Plain (SFloat 0.04));
             (KeyNumpy (SInt 3), PyList [Plain (SInt 1); Plain SNone]);
             (KeyPlain (SStr "mask"), Other "ndarray") ].
Proof. reflexivity. Qed.

(** ** Model loader *)

(** X20. The model is loaded once: after a call that returned a model the
    global holds it, and every later call returns that model without
    loading anything, whatever path it is given and whatever the weights
    on disk have become.  A call that raised leaves the global empty. *)
Theorem load_model_caches
    (_load_weights later_load_weights : string -> Py.result Model)
    (model_path later_path : string) (_model : option Model) :
  match ModelLoader.load_model _load_weights model_path _model with
  | (_, state, Ok model) =>
      state = Some model /\
      ModelLoader.load_model later_load_weights later_path state
      = ([], state, Ok model)
  | (_, state, Raise _) => state = None /\ _model = None
  end.
Proof.
  unfold ModelLoader.load_model.
  destruct _model as [m|]; [now split|].
  destruct (_load_weights model_path) as [m|e]; [now split|].
  cbv zeta. destruct (_load_weights "yolov8n.pt") as [m|e']; now split.
Qed.

(** X21. With nothing loaded, [load_model] tries the given path and, only
    if that raises, the fallback "yolov8n.pt".  It raises exactly when
    both raise, with the exception of the fallback; the exception of the
    first attempt is never passed on. *)
Theorem load_model_fallback
    (_load_weights : string -> Py.result Model) (model_path : string) :
  let run := ModelLoader.load_model _load_weights model_path None in
  (forall e : Py.exn,
      snd run = Raise e <->
      (exists first : Py.exn, _load_weights model_path = Raise first) /\
      _load_weights "yolov8n.pt" = Raise e) /\
  (forall model : Model,
      snd run = Ok model <->
      _load_weights model_path = Ok model \/
      ((exists first : Py.exn, _load_weights model_path = Raise first) /\
       _load_weights "yolov8n.pt" = Ok model)) /\
  (fst (fst run)
   = match _load_weights model_path with
     | Ok _ => [model_path]
     | Raise _ => [model_path; "yolov8n.pt"%string]
     end).
Proof.
  cbv zeta. unfold ModelLoader.load_model.
  destruct (_load_weights model_path) as [m|e0].
  - cbn. split; [|split; [|reflexivity]].
    + intros e. split; [discriminate|]. intros [(f & [=]) _].
    + intros model. split.
      * intros [= <-]. now left.
      * intros [[= <-]|[(f & [=]) _]]. reflexivity.
  - cbv zeta. destruct (_load_weights "yolov8n.pt") as [m|e1]; cbn;
      (split; [|split; [|reflexivity]]).
    + intros e. split; [discriminate|]. intros [_ [=]].
    + intros model. split.
      * intros [= <-]. right. split; [now exists e0|reflexivity].
      * intros [[=]|[_ [= <-]]]. reflexivity.
    + intros e. split.
      * intros [= <-]. split; [now exists e0|reflexivity].
      * intros [_ [= <-]]. reflexivity.
    + intros model. split; [discriminate|]. intros [[=]|[_ [=]]].
Qed.

(** ** Endpoints *)

Section EndpointFacts.

Variables LABOR_RATE MATERIAL_RATE : Q.
Variable imdecode : list Byte.byte -> option Image.
Variable get_model : Py.result Model.
Variable SAVE_DEBUG_IMAGES : bool.
Variable save_image_with_bboxes :
  list Byte.byte -> list Detection -> string -> Py.result string.
Variable str_of_exn : Py.exn -> string.

Let analysis := analyze_image_bytes LABOR_RATE MATERIAL_RATE imdecode get_model.
Let run_inference :=
  App._run_inference LABOR_RATE MATERIAL_RATE imdecode get_model
    SAVE_DEBUG_IMAGES save_image_with_bboxes str_of_exn.
Let loop :=
  App.detect_loop LABOR_RATE MATERIAL_RATE imdecode get_model
    SAVE_DEBUG_IMAGES save_image_with_bboxes str_of_exn.

Let entry_of := App.entry_of LABOR_RATE MATERIAL_RATE imdecode get_model.

Lemma _run_inference_cases (image_bytes : list Byte.byte)
    (filename : option string) :
  match snd (analysis image_bytes) with
  | Ok detections => run_inference image_bytes filename = App.Respond detections
  | Raise exc =>
      run_inference image_bytes filename
      = App.HTTPException 500 ("Inference failed: " +:+ str_of_exn exc)
  end.
Proof.
  unfold run_inference, App._run_inference, analysis.
  destruct (snd (analyze_image_bytes _ _ _ _ image_bytes)) as [d|e];
    [|reflexivity].
  destruct SAVE_DEBUG_IMAGES; [|reflexivity].
  destruct (save_image_with_bboxes _ _ _); reflexivity.
Qed.

Lemma detect_loop_Respond (images : list App.UploadFile) :
  forall acc batched : list (list Detection),
    loop images acc = App.Respond batched ->
    exists new : list (list Detection),
      batched = acc ++ new /\ Forall2 entry_of images new.
Proof.
  induction images as [|upload rest IH]; intros acc batched; cbn.
  - intros [= <-]. exists []. split; [now rewrite app_nil_r|constructor].
  - pose proof (_run_inference_cases (App.content upload) (App.filename upload))
      as Hrun.
    unfold loop in *. cbn [App.detect_loop].
    destruct (App.content upload) as [|b bs] eqn:Hc.
    + intros H. destruct (IH _ _ H) as (new & -> & Hall).
      exists ([] :: new). split; [now rewrite <- app_assoc|].
      constructor; [unfold entry_of, App.entry_of; now rewrite Hc|exact Hall].
    + destruct (snd (analysis (b :: bs))) as [d|e] eqn:Ha;
        fold run_inference; rewrite Hrun; [|discriminate].
      intros H. destruct (IH _ _ H) as (new & -> & Hall).
      exists (d :: new). split; [now rewrite <- app_assoc|].
      constructor; [unfold entry_of, App.entry_of; now rewrite Hc|exact Hall].
Qed.

Lemma detect_loop_HTTPException (images : list App.UploadFile) :
  forall (acc : list (list Detection)) (status_code : Z) (detail : string),
    loop images acc = App.HTTPException status_code detail ->
    exists (before after : list App.UploadFile) (upload : App.UploadFile)
           (exc : Py.exn),
      images = before ++ upload :: after /\
      Forall (fun u => exists d, entry_of u d) before /\
      App.content upload <> [] /\
      snd (analysis (App.content upload)) = Raise exc /\
      status_code = 500%Z /\
      detail = ("Inference failed: " +:+ str_of_exn exc).
Proof.
  induction images as [|upload rest IH]; intros acc status_code detail; cbn.
  - discriminate.
  - pose proof (_run_inference_cases (App.content upload) (App.filename upload))
      as Hrun.
    unfold loop in *. cbn [App.detect_loop].
    destruct (App.content upload) as [|b bs] eqn:Hc.
    + intros H. destruct (IH _ _ _ H) as (bf & af & u & exc & -> & Hbf & Hrest).
      exists (upload :: bf), af, u, exc. split; [reflexivity|].
      split; [|exact Hrest].
      constructor; [|exact Hbf]. exists []. unfold entry_of, App.entry_of. now rewrite Hc.
    + destruct (snd (analysis (b :: bs))) as [d|e] eqn:Ha;
        fold run_inference; rewrite Hrun.
      * intros H. destruct (IH _ _ _ H) as (bf & af & u & exc & -> & Hbf & Hrest).
        exists (upload :: bf), af, u, exc. split; [reflexivity|].
        split; [|exact Hrest].
        constructor; [|exact Hbf]. exists d. unfold entry_of, App.entry_of. now rewrite Hc.
      * intros [= <- <-]. exists [], rest, upload, e.
        rewrite Hc. repeat split; [constructor|discriminate|exact Ha].
Qed.

End EndpointFacts.

(** X22. A batch that succeeds holds one entry per upload, in the order of
    the uploads: the empty list for an upload without content, which is
    never analysed, and for every other upload the list the normalizer
    returned for its bytes.  Neither the debug flag nor a failure to save
    the debug image changes the content. *)
Theorem detect_damage_one_entry_per_upload
    (LABOR_RATE MATERIAL_RATE : Q)
    (imdecode : list Byte.byte -> option Image) (get_model : Py.result Model)
    (SAVE_DEBUG_IMAGES : bool)
    (save_image_with_bboxes :
       list Byte.byte -> list Detection -> string -> Py.result string)
    (str_of_exn : Py.exn -> string) (images : list App.UploadFile) :
  match App.detect_damage LABOR_RATE MATERIAL_RATE imdecode get_model
          SAVE_DEBUG_IMAGES save_image_with_bboxes str_of_exn images with
  | App.Respond batched =>
      images <> [] /\
      length batched = length images /\
      Forall2 (App.entry_of LABOR_RATE MATERIAL_RATE imdecode get_model)
        images batched
  | App.HTTPException _ _ => True
  end.
Proof.
  unfold App.detect_damage. destruct images as [|upload rest]; [exact I|].
  destruct (App.detect_loop _ _ _ _ _ _ _ (upload :: rest) []) as [batched|s d] eqn:E;
    [|exact I].
  apply detect_loop_Respond in E as (new & -> & Hall).
  split; [discriminate|]. cbn [app].
  split; [symmetry; exact (Forall2_length _ _ _ Hall)|exact Hall].
Qed.

(** X23. A batch fails in two ways only: with status 400 when no upload
    was sent, and with status 500 and the message of the exception at the
    first upload with content whose analysis raises.  The uploads before
    it succeeded, and their results are not returned. *)
Theorem detect_damage_failures
    (LABOR_RATE MATERIAL_RATE : Q)
    (imdecode : list Byte.byte -> option Image) (get_model : Py.result Model)
    (SAVE_DEBUG_IMAGES : bool)
    (save_image_with_bboxes :
       list Byte.byte -> list Detection -> string -> Py.result string)
    (str_of_exn : Py.exn -> string) (images : list App.UploadFile) :
  match App.detect_damage LABOR_RATE MATERIAL_RATE imdecode get_model
          SAVE_DEBUG_IMAGES save_image_with_bboxes str_of_exn images with
  | App.Respond _ => True
  | App.HTTPException status_code detail =>
      (images = [] /\ status_code = 400%Z /\
       detail = "No images were provided"%string) \/
      (exists (before after : list App.UploadFile) (upload : App.UploadFile)
              (exc : Py.exn),
          images = before ++ upload :: after /\
          Forall (fun u =>
                    exists d, App.entry_of LABOR_RATE MATERIAL_RATE imdecode
                                get_model u d) before /\
          App.content upload <> [] /\
          snd (analyze_image_bytes LABOR_RATE MATERIAL_RATE imdecode get_model
                 (App.content upload)) = Raise exc /\
          status_code = 500%Z /\
          detail = ("Inference failed: " +:+ str_of_exn exc))
  end.
Proof.
  unfold App.detect_damage. destruct images as [|upload rest].
  { left. repeat split. }
  destruct (App.detect_loop _ _ _ _ _ _ _ (upload :: rest) []) as [batched|s d] eqn:E;
    [exact I|].
  right. exact (detect_loop_HTTPException _ _ _ _ _ _ _ _ _ _ _ E).
Qed.

Lemma after_first_comma_app (prefix payload : string) :
  App.after_first_comma prefix = None ->
  App.after_first_comma (prefix +:+ "," +:+ payload) = Some payload.
Proof.
  induction prefix as [|c prefix IH]; [reflexivity|].
  change (String c prefix +:+ "," +:+ payload)
    with (String c (prefix +:+ "," +:+ payload)).
  cbn [App.after_first_comma].
  destruct (Ascii.eqb c ","); [discriminate|exact IH].
Qed.

(** X24. A data URL is accepted for its payload: when the JSON member
    "image" is a prefix without comma, a comma and a non-empty payload
    without comma, the endpoint answers what it answers for the payload
    alone. *)
Theorem analyze_single_image_data_url
    (LABOR_RATE MATERIAL_RATE : Q)
    (imdecode : list Byte.byte -> option Image) (get_model : Py.result Model)
    (SAVE_DEBUG_IMAGES : bool)
    (save_image_with_bboxes :
       list Byte.byte -> list Detection -> string -> Py.result string)
    (str_of_exn : Py.exn -> string)
    (b64decode : string -> Py.result (list Byte.byte))
    (data : gmap string string) (prefix payload : string) :
  App.after_first_comma prefix = None ->
  App.after_first_comma payload = None ->
  payload <> ""%string ->
  App.analyze_single_image LABOR_RATE MATERIAL_RATE imdecode get_model
    SAVE_DEBUG_IMAGES save_image_with_bboxes str_of_exn b64decode None
    (Ok (<["image"%string := prefix +:+ "," +:+ payload]> data))
  = App.analyze_single_image LABOR_RATE MATERIAL_RATE imdecode get_model
      SAVE_DEBUG_IMAGES save_image_with_bboxes str_of_exn b64decode None
      (Ok (<["image"%string := payload]> data)).
Proof.
  intros Hprefix Hpayload Hne. unfold App.analyze_single_image.
  rewrite !lookup_insert_eq. cbv zeta.
  rewrite (after_first_comma_app prefix payload Hprefix), Hpayload.
  destruct payload as [|c p]; [contradiction|].
  destruct prefix as [|c' p']; reflexivity.
Qed.

Lemma analyze_single_image_data_url_witness :
  App.analyze_single_image 70 50 sample_decoder (Ok sample_model)
    false (fun _ _ name => Ok name) (fun _ => ""%string)
    (fun _ => Ok [Byte.x00]) None
    (Ok (<["image"%string := "data:image/png;base64" +:+ "," +:+ "QUJD"]> ∅))
  = App.analyze_single_image 70 50 sample_decoder (Ok sample_model)
      false (fun _ _ name => Ok name) (fun _ => ""%string)
      (fun _ => Ok [Byte.x00]) None
      (Ok (<["image"%string := "QUJD"]> ∅)).
Proof.
  apply (analyze_single_image_data_url 70 50 (fun _ => Some sample_image)
           (Ok sample_model) false (fun _ _ name => Ok name)
           (fun _ => ""%string) (fun _ => Ok [Byte.x00]) ∅
           "data:image/png;base64" "QUJD");
    [reflexivity|reflexivity|discriminate].
Defined.
